(** * ADLX custom fan tuning: the calls [main] makes into the SDK

    The program of [main.cpp] is glue code over AMD's ADLX library: it
    owns no data structure, and everything it does is a call into the SDK
    followed by a test of what the call returned.  The development below
    embeds [main], [WaitAndExit], [SetZeroRPM] and [SetFan] as functions
    over an arbitrary implementation of the SDK (the class [ADLX]), in a
    monad that threads the SDK's state, records every call together with
    its answer, and stops when the program dereferences a null interface
    pointer or indexes one of its two arrays out of range. *)

From Stdlib Require Import List ZArith String Bool Arith Lia.
Import ListNotations.

Set Implicit Arguments.

Local Open Scope Z_scope.
Local Open Scope string_scope.
Local Open Scope list_scope.

(** ** The SDK as an interface

    The headers of the SDK are not part of the program.  Its result codes,
    the two macros that classify them, its interface types and its methods
    are therefore fields of a class; a method takes the state of the SDK
    (driver and device) and returns its answer with the new state.

    An out-parameter is part of the answer: the program initialises each
    of them with a constant ([false], [0], a null smart pointer; taking the
    address of an ADLX smart pointer resets it to null), so the value the
    variable holds after the call is determined by the SDK alone.  A smart
    pointer is an [option]: [None] is the null pointer. *)

Class ADLX : Type := {
  ADLX_RESULT : Type;
  ADLX_SUCCEEDED : ADLX_RESULT -> bool;
  ADLX_FAILED : ADLX_RESULT -> bool;

  IADLXGPUTuningServices : Type;
  IADLXGPUList : Type;
  IADLXGPU : Type;
  IADLXInterface : Type;
  IADLXManualFanTuning : Type;
  IADLXManualFanTuningStateList : Type;
  IADLXManualFanTuningState : Type;

  World : Type;

  (* ADLXHelper *)
  Initialize : World -> ADLX_RESULT * World;
  Terminate : World -> ADLX_RESULT * World;
  (* IADLXSystem, reached through g_ADLXHelp.GetSystemServices() *)
  GetGPUTuningServices :
    World -> (ADLX_RESULT * option IADLXGPUTuningServices) * World;
  GetGPUs : World -> (ADLX_RESULT * option IADLXGPUList) * World;
  (* IADLXGPUList *)
  GPUList_At :
    IADLXGPUList -> nat -> World -> (ADLX_RESULT * option IADLXGPU) * World;
  (* IADLXGPUTuningServices *)
  IsSupportedManualFanTuning :
    IADLXGPUTuningServices -> option IADLXGPU -> World ->
    (ADLX_RESULT * bool) * World;
  GetManualFanTuning :
    IADLXGPUTuningServices -> option IADLXGPU -> World ->
    (ADLX_RESULT * option IADLXInterface) * World;
  (* the converting constructor IADLXManualFanTuningPtr(IADLXInterfacePtr),
     which asks the interface for IADLXManualFanTuning *)
  QueryInterface :
    option IADLXInterface -> World -> option IADLXManualFanTuning * World;
  (* IADLXManualFanTuning *)
  IsSupportedZeroRPM :
    IADLXManualFanTuning -> World -> (ADLX_RESULT * bool) * World;
  GetZeroRPMState :
    IADLXManualFanTuning -> World -> (ADLX_RESULT * bool) * World;
  SetZeroRPMState :
    IADLXManualFanTuning -> bool -> World -> ADLX_RESULT * World;
  GetFanTuningStates :
    IADLXManualFanTuning -> World ->
    (ADLX_RESULT * option IADLXManualFanTuningStateList) * World;
  IsValidFanTuningStates :
    IADLXManualFanTuning -> option IADLXManualFanTuningStateList -> World ->
    (ADLX_RESULT * Z) * World;
  SetFanTuningStates :
    IADLXManualFanTuning -> option IADLXManualFanTuningStateList -> World ->
    ADLX_RESULT * World;
  (* IADLXManualFanTuningStateList *)
  StateList_Size : IADLXManualFanTuningStateList -> World -> nat * World;
  StateList_Begin : IADLXManualFanTuningStateList -> World -> nat * World;
  StateList_End : IADLXManualFanTuningStateList -> World -> nat * World;
  StateList_At :
    IADLXManualFanTuningStateList -> nat -> World ->
    (ADLX_RESULT * option IADLXManualFanTuningState) * World;
  (* IADLXManualFanTuningState *)
  GetFanSpeed : IADLXManualFanTuningState -> World -> (ADLX_RESULT * Z) * World;
  SetFanSpeed : IADLXManualFanTuningState -> Z -> World -> ADLX_RESULT * World;
  GetTemperature :
    IADLXManualFanTuningState -> World -> (ADLX_RESULT * Z) * World;
  SetTemperature :
    IADLXManualFanTuningState -> Z -> World -> ADLX_RESULT * World
}.

Section Program.

Context {sdk : ADLX}.

(** ** Events: one per call into the SDK or into the C++ runtime, with
    the receiver, the arguments and the answer. *)

Inductive Event : Type :=
| EvInitialize (res : ADLX_RESULT)
| EvTerminate (res : ADLX_RESULT)
| EvGetGPUTuningServices (res : ADLX_RESULT)
    (out : option IADLXGPUTuningServices)
| EvGetGPUs (res : ADLX_RESULT) (out : option IADLXGPUList)
| EvGPUListAt (gpus : IADLXGPUList) (idx : nat) (res : ADLX_RESULT)
    (out : option IADLXGPU)
| EvIsSupportedManualFanTuning (svc : IADLXGPUTuningServices)
    (gpu : option IADLXGPU) (res : ADLX_RESULT) (supported : bool)
| EvGetManualFanTuning (svc : IADLXGPUTuningServices) (gpu : option IADLXGPU)
    (res : ADLX_RESULT) (out : option IADLXInterface)
| EvQueryInterface (ifc : option IADLXInterface)
    (out : option IADLXManualFanTuning)
| EvIsSupportedZeroRPM (mft : IADLXManualFanTuning) (res : ADLX_RESULT)
    (supported : bool)
| EvGetZeroRPMState (mft : IADLXManualFanTuning) (res : ADLX_RESULT)
    (enabled : bool)
| EvSetZeroRPMState (mft : IADLXManualFanTuning) (enabled : bool)
    (res : ADLX_RESULT)
| EvGetFanTuningStates (mft : IADLXManualFanTuning) (res : ADLX_RESULT)
    (out : option IADLXManualFanTuningStateList)
| EvIsValidFanTuningStates (mft : IADLXManualFanTuning)
    (states : option IADLXManualFanTuningStateList) (res : ADLX_RESULT)
    (errorIndex : Z)
| EvSetFanTuningStates (mft : IADLXManualFanTuning)
    (states : option IADLXManualFanTuningStateList) (res : ADLX_RESULT)
| EvSize (states : IADLXManualFanTuningStateList) (n : nat)
| EvBegin (states : IADLXManualFanTuningStateList) (n : nat)
| EvEnd (states : IADLXManualFanTuningStateList) (n : nat)
| EvStateAt (states : IADLXManualFanTuningStateList) (idx : nat)
    (res : ADLX_RESULT) (out : option IADLXManualFanTuningState)
| EvGetFanSpeed (st : IADLXManualFanTuningState) (res : ADLX_RESULT) (v : Z)
| EvSetFanSpeed (st : IADLXManualFanTuningState) (v : Z) (res : ADLX_RESULT)
| EvGetTemperature (st : IADLXManualFanTuningState) (res : ADLX_RESULT) (v : Z)
| EvSetTemperature (st : IADLXManualFanTuningState) (v : Z) (res : ADLX_RESULT)
| EvCout (msg : string)
| EvCoutRes (msg : string) (res : ADLX_RESULT)
| EvPause.

(** ** The monad: SDK state, event log, abnormal termination *)

Record Run (A : Type) : Type := mkRun {
  result : option A;      (* [None]: the program crashed *)
  events : list Event;    (* what happened, oldest first *)
  final : World
}.

Definition M (A : Type) : Type := World -> Run A.

Definition ret {A} (a : A) : M A := fun w => mkRun (Some a) [] w.

Definition crash {A} : M A := fun w => mkRun None [] w.

Definition bind {A B} (m : M A) (k : A -> M B) : M B :=
  fun w =>
    match m w with
    | mkRun (Some a) t1 w1 =>
        match k a w1 with
        | mkRun r t2 w2 => mkRun r (t1 ++ t2) w2
        end
    | mkRun None t1 w1 => mkRun None t1 w1
    end.

(** A call into the SDK: run the method on the current state, log it. *)
Definition call {R} (method : World -> R * World) (ev : R -> Event) : M R :=
  fun w =>
    match method w with
    | (a, w') => mkRun (Some a) [ev a] w'
    end.

(** A call into the C++ runtime ([std::cout], [system]). *)
Definition emit (e : Event) : M unit := fun w => mkRun (Some tt) [e] w.

(** [p->]: a null smart pointer cannot be dereferenced. *)
Definition deref {H} (p : option H) : M H :=
  match p with
  | Some h => ret h
  | None => crash
  end.

(** [p == nullptr] *)
Definition isnull {H} (p : option H) : bool :=
  match p with
  | Some _ => false
  | None => true
  end.

(** [a[i]] on a C array of known length. *)
Definition index (a : list Z) (i : nat) : M Z :=
  match nth_error a i with
  | Some v => ret v
  | None => crash
  end.

End Program.

Declare Scope adlx_scope.
Delimit Scope adlx_scope with adlx.

Notation "x <- m ;; k" := (bind m (fun x => k))
  (at level 61, m at next level, right associativity) : adlx_scope.
Notation "' pat <- m ;; k" := (bind m (fun x => match x with pat => k end))
  (at level 61, pat pattern, m at next level, right associativity)
  : adlx_scope.
Notation "m ;;; k" := (bind m (fun _ => k))
  (at level 61, right associativity) : adlx_scope.

Local Open Scope adlx_scope.

Section Source.

Context {sdk : ADLX}.

(** ** [main.cpp] *)

(** [WaitAndExit], lines 115-125. *)
Definition WaitAndExit (msg : option string) (retCode : Z) : M Z :=
  match msg with
  | Some s => emit (EvCout s)
  | None => ret tt
  end ;;;
  emit EvPause ;;;
  ret retCode.

(** [SetZeroRPM], lines 128-146. *)
Definition SetZeroRPM (manualFanTuningPtr : option IADLXManualFanTuning)
    (enabled : bool) : M unit :=
  manualFanTuning <- deref manualFanTuningPtr ;;
  '(res, supported) <-
     call (IsSupportedZeroRPM manualFanTuning)
          (fun a => EvIsSupportedZeroRPM manualFanTuning (fst a) (snd a)) ;;
  if ADLX_FAILED res || negb supported then ret tt
  else
    '(res, ZeroRPMenabled) <-
       call (GetZeroRPMState manualFanTuning)
            (fun a => EvGetZeroRPMState manualFanTuning (fst a) (snd a)) ;;
    if negb (Bool.eqb ZeroRPMenabled enabled) then
      res <- call (SetZeroRPMState manualFanTuning enabled)
                  (EvSetZeroRPMState manualFanTuning enabled) ;;
      ret tt
    else ret tt.

(** The two arrays of [SetFan], lines 151-152. *)
Definition FanSpeed : list Z := [25; 45; 50; 65; 90].
Definition Temperature : list Z := [45; 50; 65; 85; 95].

(** The body of the loop of [SetFan], lines 165-184. *)
Definition SetFan_body (states : IADLXManualFanTuningStateList) (crt : nat)
    : M unit :=
  '(res, oneState) <-
     call (StateList_At states crt)
          (fun a => EvStateAt states crt (fst a) (snd a)) ;;
  st <- deref oneState ;;
  '(_, speed) <-
     call (GetFanSpeed st) (fun a => EvGetFanSpeed st (fst a) (snd a)) ;;
  target <- index FanSpeed crt ;;
  (if negb (speed =? target)%Z then
     call (SetFanSpeed st target) (EvSetFanSpeed st target) ;;;
     call (GetFanSpeed st) (fun a => EvGetFanSpeed st (fst a) (snd a)) ;;;
     ret tt
   else ret tt) ;;;
  '(_, temperature) <-
     call (GetTemperature st)
          (fun a => EvGetTemperature st (fst a) (snd a)) ;;
  target <- index Temperature crt ;;
  if negb (temperature =? target)%Z then
    call (SetTemperature st target) (EvSetTemperature st target) ;;;
    call (GetTemperature st)
         (fun a => EvGetTemperature st (fst a) (snd a)) ;;;
    ret tt
  else ret tt.

(** The loop of [SetFan], line 163, from the test of its condition on:
    [crt != states->End()], the body, [++crt].  It runs on fuel; fuel that
    runs out is a crash.  [SetFan_loop_fuel] shows that six units are
    always enough: an iteration with [5 <= crt] ends in [FanSpeed[crt]]. *)
Fixpoint SetFan_loop (fuel : nat) (states : IADLXManualFanTuningStateList)
    (crt : nat) : M unit :=
  e <- call (StateList_End states) (EvEnd states) ;;
  if Nat.eqb crt e then ret tt
  else
    match fuel with
    | O => crash
    | S fuel' =>
        SetFan_body states crt ;;;
        SetFan_loop fuel' states (S crt)
    end.

(** [SetFan], lines 149-198. *)
Definition SetFan (manualFanTuningPtr : option IADLXManualFanTuning)
    : M unit :=
  manualFanTuning <- deref manualFanTuningPtr ;;
  '(res, states) <-
     call (GetFanTuningStates manualFanTuning)
          (fun a => EvGetFanTuningStates manualFanTuning (fst a) (snd a)) ;;
  (if ADLX_SUCCEEDED res then
     l <- deref states ;;
     StatesSize <- call (StateList_Size l) (EvSize l) ;;
     if Nat.eqb StatesSize 5 then
       crt <- call (StateList_Begin l) (EvBegin l) ;;
       SetFan_loop 6 l crt
     else ret tt
   else ret tt) ;;;
  '(res, errorIndex) <-
     call (IsValidFanTuningStates manualFanTuning states)
          (fun a =>
             EvIsValidFanTuningStates manualFanTuning states (fst a) (snd a)) ;;
  if ADLX_SUCCEEDED res then
    call (SetFanTuningStates manualFanTuning states)
         (EvSetFanTuningStates manualFanTuning states) ;;;
    ret tt
  else ret tt.

(** The character [\t] that starts every message of [main]. *)
Definition tab : string := String (Ascii.ascii_of_nat 9) EmptyString.

(** The four lines every failure branch of [main] shares: destroy ADLX,
    print the result, then [return WaitAndExit(msg, 0)]. *)
Definition destroy_and_exit (msg : string) : M Z :=
  res <- call Terminate EvTerminate ;;
  emit (EvCoutRes "Destroy ADLX res: " res) ;;;
  WaitAndExit (Some msg) 0.

(** [main], lines 31-112.  [g_ADLXHelp.GetSystemServices()] is part of the
    two calls made through it. *)
Definition main : M Z :=
  res <- call Initialize EvInitialize ;;
  if ADLX_SUCCEEDED res then
    '(res, gpuTuningService) <-
       call GetGPUTuningServices
            (fun a => EvGetGPUTuningServices (fst a) (snd a)) ;;
    if ADLX_FAILED res then
      destroy_and_exit (tab ++ "Get GPU tuning services failed")%string
    else
    '(res, gpus) <- call GetGPUs (fun a => EvGetGPUs (fst a) (snd a)) ;;
    if ADLX_FAILED res then
      destroy_and_exit (tab ++ "Get GPU list failed")%string
    else
    gpuList <- deref gpus ;;
    '(res, oneGPU) <-
       call (GPUList_At gpuList 0)
            (fun a => EvGPUListAt gpuList 0 (fst a) (snd a)) ;;
    if ADLX_FAILED res || isnull oneGPU then
      destroy_and_exit (tab ++ "Get GPU failed")%string
    else
    svc <- deref gpuTuningService ;;
    '(res, supported) <-
       call (IsSupportedManualFanTuning svc oneGPU)
            (fun a => EvIsSupportedManualFanTuning svc oneGPU (fst a) (snd a)) ;;
    if ADLX_FAILED res || Bool.eqb supported false then
      destroy_and_exit (tab ++ "This GPU doesn't supported manual fan tuning")%string
    else
    '(res, manualFanTuningIfc) <-
       call (GetManualFanTuning svc oneGPU)
            (fun a => EvGetManualFanTuning svc oneGPU (fst a) (snd a)) ;;
    if ADLX_FAILED res || isnull manualFanTuningIfc then
      destroy_and_exit (tab ++ "Get manual fan tuning interface failed")%string
    else
    manualFanTuning <-
       call (QueryInterface manualFanTuningIfc)
            (EvQueryInterface manualFanTuningIfc) ;;
    if isnull manualFanTuning then
      destroy_and_exit (tab ++ "Get manual fan tuning failed")%string
    else
      SetZeroRPM manualFanTuning false ;;;
      SetFan manualFanTuning ;;;
      res <- call Terminate EvTerminate ;;
      ret 0
  else
    WaitAndExit (Some (tab ++ "g_ADLXHelp initialize failed")%string) 0.

End Source.

(** ** Vocabulary for statements about a log *)

Section Vocabulary.

Context {sdk : ADLX}.

(** The call that destroys ADLX. *)
Definition is_terminate (e : Event) : bool :=
  match e with
  | EvTerminate _ => true
  | _ => false
  end.

Definition terminations (tr : list Event) : nat :=
  List.length (filter is_terminate tr).

(** Console output and [system("pause")]: the C++ runtime, not the SDK. *)
Definition is_runtime (e : Event) : bool :=
  match e with
  | EvCout _ | EvCoutRes _ _ | EvPause => true
  | _ => false
  end.

(** The calls on the zero-RPM setting. *)
Definition is_zero_rpm (e : Event) : bool :=
  match e with
  | EvIsSupportedZeroRPM _ _ _ | EvGetZeroRPMState _ _ _
  | EvSetZeroRPMState _ _ _ => true
  | _ => false
  end.

(** The calls on one fan-tuning state. *)
Definition is_state_read (e : Event) : bool :=
  match e with
  | EvGetFanSpeed _ _ _ | EvGetTemperature _ _ _ => true
  | _ => false
  end.

Definition is_state_write (e : Event) : bool :=
  match e with
  | EvSetFanSpeed _ _ _ | EvSetTemperature _ _ _ => true
  | _ => false
  end.

(** The calls of the loop of [SetFan]: on the positions of the list and
    on its elements. *)
Definition is_element (e : Event) : bool :=
  match e with
  | EvBegin _ _ | EvEnd _ _ | EvStateAt _ _ _ _ => true
  | _ => is_state_read e || is_state_write e
  end.

(** The calls on the list of fan-tuning states and on its elements. *)
Definition is_state_access (e : Event) : bool :=
  match e with
  | EvSize _ _ => true
  | _ => is_element e
  end.

(** The calls of [SetFan]: the fan curve. *)
Definition is_fan_curve (e : Event) : bool :=
  match e with
  | EvGetFanTuningStates _ _ _ | EvIsValidFanTuningStates _ _ _ _
  | EvSetFanTuningStates _ _ _ => true
  | _ => is_state_access e
  end.

(** Tuning: every call on the manual fan tuning interface of the GPU and
    on what it hands out. *)
Definition is_tuning (e : Event) : bool := is_zero_rpm e || is_fan_curve e.

(** The calls that change a setting of the GPU. *)
Definition is_mutation (e : Event) : bool :=
  match e with
  | EvSetZeroRPMState _ _ _ | EvSetFanTuningStates _ _ _ => true
  | _ => is_state_write e
  end.

(** The manual fan tuning interface a call is made on. *)
Definition receiver (e : Event) : option IADLXManualFanTuning :=
  match e with
  | EvIsSupportedZeroRPM mft _ _ | EvGetZeroRPMState mft _ _
  | EvSetZeroRPMState mft _ _ | EvGetFanTuningStates mft _ _
  | EvIsValidFanTuningStates mft _ _ _ | EvSetFanTuningStates mft _ _ =>
      Some mft
  | _ => None
  end.

(** Where the object of a call comes from, given the events [pre] before
    it: the GPU list is read at index 0 only; the GPU handed to the tuning
    services is what that read returned; the interface converted is the
    one fetched for that GPU; and every call on a manual fan tuning
    interface is on the result of that conversion. *)
Definition from_first_gpu (pre : list Event) (e : Event) : Prop :=
  match e with
  | EvGPUListAt gpus idx _ _ =>
      idx = 0%nat /\ exists res, In (EvGetGPUs res (Some gpus)) pre
  | EvIsSupportedManualFanTuning _ gpu _ _
  | EvGetManualFanTuning _ gpu _ _ =>
      exists gpus res, In (EvGPUListAt gpus 0 res gpu) pre
  | EvQueryInterface ifc _ =>
      exists svc gpu res, In (EvGetManualFanTuning svc gpu res ifc) pre
  | _ =>
      match receiver e with
      | Some mft => exists ifc, In (EvQueryInterface ifc (Some mft)) pre
      | None => True
      end
  end.

(** *** Reads and writes of a setting *)

(** The position and the state handed out by the latest [At] of a
    history (most recent event first). *)
Fixpoint current_state (hist : list Event)
    : option (nat * option IADLXManualFanTuningState) :=
  match hist with
  | [] => None
  | EvStateAt _ idx _ out :: _ => Some (idx, out)
  | _ :: hist' => current_state hist'
  end.

(** The calls that write one setting: the zero-RPM state, the speed or
    the temperature of a fan-tuning state. *)
Definition is_setting_write (e : Event) : bool :=
  match e with
  | EvSetZeroRPMState _ _ _ => true
  | _ => is_state_write e
  end.

(** A write is guarded when the event just before it is the read of the
    same setting of the same object, the value read differs from the
    value written, and the value written is the fixed target: [false] for
    zero RPM, [FanSpeed[idx]] and [Temperature[idx]] for the state at
    position [idx]. *)
Definition guarded_write (hist : list Event) (e : Event) : Prop :=
  match e with
  | EvSetZeroRPMState mft enabled _ =>
      exists res cur hist',
        hist = EvGetZeroRPMState mft res cur :: hist' /\
        cur <> enabled /\ enabled = false
  | EvSetFanSpeed st v _ =>
      exists res cur hist' idx,
        hist = EvGetFanSpeed st res cur :: hist' /\
        cur <> v /\
        current_state hist' = Some (idx, Some st) /\
        nth_error FanSpeed idx = Some v
  | EvSetTemperature st v _ =>
      exists res cur hist' idx,
        hist = EvGetTemperature st res cur :: hist' /\
        cur <> v /\
        current_state hist' = Some (idx, Some st) /\
        nth_error Temperature idx = Some v
  | _ => True
  end.

(** A read shows the target when the value it returns is the value the
    program would write. *)
Definition shows_target (hist : list Event) (e : Event) : Prop :=
  match e with
  | EvGetZeroRPMState _ _ cur => cur = false
  | EvGetFanSpeed st _ cur =>
      exists idx,
        current_state hist = Some (idx, Some st) /\
        nth_error FanSpeed idx = Some cur
  | EvGetTemperature st _ cur =>
      exists idx,
        current_state hist = Some (idx, Some st) /\
        nth_error Temperature idx = Some cur
  | _ => False
  end.

(** The call that commits the list of states. *)
Definition is_commit (e : Event) : bool :=
  match e with
  | EvSetFanTuningStates _ _ _ => true
  | _ => false
  end.

(** A commit is validated when the event just before it is the
    validation of the same list through the same interface, and that
    validation succeeded. *)
Definition validated_commit (hist : list Event) (e : Event) : Prop :=
  match e with
  | EvSetFanTuningStates mft states _ =>
      exists res idx hist',
        hist = EvIsValidFanTuningStates mft states res idx :: hist' /\
        ADLX_SUCCEEDED res = true
  | _ => True
  end.

(** *** The fan curve *)

(** [brings_to get set target tr]: [tr] is the read of a setting and,
    when the value read differs from [target], the write of [target] and
    a second read. *)
Definition brings_to (get : ADLX_RESULT -> Z -> Event)
    (set : Z -> ADLX_RESULT -> Event) (target : Z) (tr : list Event)
    : Prop :=
  exists res cur,
    (cur = target /\ tr = [get res cur]) \/
    (cur <> target /\
     exists res' res'' cur',
       tr = [get res cur; set target res'; get res'' cur']).

(** [visits l idx tr]: [tr] is the visit of the state at position [idx]
    of the list [l]: [At(idx)] hands out a state, whose speed is brought
    to [FanSpeed[idx]] and whose temperature to [Temperature[idx]]. *)
Definition visits (l : IADLXManualFanTuningStateList) (idx : nat)
    (tr : list Event) : Prop :=
  exists res st speed temperature tr1 tr2,
    nth_error FanSpeed idx = Some speed /\
    nth_error Temperature idx = Some temperature /\
    tr = EvStateAt l idx res (Some st) :: tr1 ++ tr2 /\
    brings_to (EvGetFanSpeed st) (EvSetFanSpeed st) speed tr1 /\
    brings_to (EvGetTemperature st) (EvSetTemperature st) temperature tr2.

(** The log of the loop over a list of five states that behaves as
    documented: before each visit, and after the last, [End()] is asked
    and answers 5. *)
Definition loop_log (l : IADLXManualFanTuningStateList)
    (visit_logs : list (list Event)) : list Event :=
  flat_map (fun v => EvEnd l 5 :: v) visit_logs ++ [EvEnd l 5].

(** *** The tests of the program

    [passed c]: the answer logged in [c] passes the test the program makes
    on it (an event the program does not test passes). *)
Definition passed (c : Event) : bool :=
  match c with
  | EvInitialize res => ADLX_SUCCEEDED res
  | EvGetGPUTuningServices res _ => negb (ADLX_FAILED res)
  | EvGetGPUs res _ => negb (ADLX_FAILED res)
  | EvGPUListAt _ _ res out => negb (ADLX_FAILED res || isnull out)
  | EvIsSupportedManualFanTuning _ _ res supported =>
      negb (ADLX_FAILED res || Bool.eqb supported false)
  | EvGetManualFanTuning _ _ res out => negb (ADLX_FAILED res || isnull out)
  | EvQueryInterface _ out => negb (isnull out)
  | EvIsSupportedZeroRPM _ res supported =>
      negb (ADLX_FAILED res || negb supported)
  | EvGetFanTuningStates _ res _ => ADLX_SUCCEEDED res
  | EvSize _ n => Nat.eqb n 5
  | EvIsValidFanTuningStates _ _ res _ => ADLX_SUCCEEDED res
  | _ => true
  end.

(** The kinds of events, as far as the tests are concerned. *)
Inductive Kind : Type :=
| KInitialize     (* Initialize *)
| KAcquire        (* GetGPUTuningServices ... the interface conversion *)
| KZeroSupport    (* IsSupportedZeroRPM *)
| KZeroState      (* GetZeroRPMState, SetZeroRPMState *)
| KFetchStates    (* GetFanTuningStates *)
| KSize           (* Size *)
| KElement        (* Begin, End, At, the reads and writes of a state *)
| KValidate       (* IsValidFanTuningStates *)
| KCommit         (* SetFanTuningStates *)
| KTerminate
| KRuntime.

Definition kind (e : Event) : Kind :=
  match e with
  | EvInitialize _ => KInitialize
  | EvTerminate _ => KTerminate
  | EvGetGPUTuningServices _ _ | EvGetGPUs _ _ | EvGPUListAt _ _ _ _
  | EvIsSupportedManualFanTuning _ _ _ _ | EvGetManualFanTuning _ _ _ _
  | EvQueryInterface _ _ => KAcquire
  | EvIsSupportedZeroRPM _ _ _ => KZeroSupport
  | EvGetZeroRPMState _ _ _ | EvSetZeroRPMState _ _ _ => KZeroState
  | EvGetFanTuningStates _ _ _ => KFetchStates
  | EvIsValidFanTuningStates _ _ _ _ => KValidate
  | EvSetFanTuningStates _ _ _ => KCommit
  | EvSize _ _ => KSize
  | EvBegin _ _ | EvEnd _ _ | EvStateAt _ _ _ _
  | EvGetFanSpeed _ _ _ | EvSetFanSpeed _ _ _
  | EvGetTemperature _ _ _ | EvSetTemperature _ _ _ => KElement
  | EvCout _ | EvCoutRes _ _ | EvPause => KRuntime
  end.

(** [guards_kind c e]: calls of kind [e] lie behind the test on calls of
    kind [c].  [Initialize] guards every other call into the SDK; the
    tests of [main] up to the interface conversion guard every call but
    [Terminate]; and inside [SetZeroRPM] and [SetFan] each test guards
    the calls of the block it opens. *)
Definition guards_kind (c e : Kind) : bool :=
  match c, e with
  | KInitialize, KRuntime => false
  | KInitialize, _ => true
  | KAcquire, (KTerminate | KRuntime) => false
  | KAcquire, _ => true
  | KZeroSupport, KZeroState => true
  | KFetchStates, (KSize | KElement) => true
  | KSize, KElement => true
  | KValidate, KCommit => true
  | _, _ => false
  end.

Definition guards (c e : Event) : bool := guards_kind (kind c) (kind e).

(** *** The order of the calls *)

(** The place of a call in the sequence of [main]. *)
Definition stage (e : Event) : nat :=
  match e with
  | EvInitialize _ => 0
  | EvGetGPUTuningServices _ _ => 1
  | EvGetGPUs _ _ => 2
  | EvGPUListAt _ _ _ _ => 3
  | EvIsSupportedManualFanTuning _ _ _ _ => 4
  | EvGetManualFanTuning _ _ _ _ => 5
  | EvQueryInterface _ _ => 6
  | EvIsSupportedZeroRPM _ _ _ | EvGetZeroRPMState _ _ _
  | EvSetZeroRPMState _ _ _ => 7
  | EvGetFanTuningStates _ _ _ | EvSize _ _ | EvBegin _ _ | EvEnd _ _
  | EvStateAt _ _ _ _ | EvGetFanSpeed _ _ _ | EvSetFanSpeed _ _ _
  | EvGetTemperature _ _ _ | EvSetTemperature _ _ _ => 8
  | EvIsValidFanTuningStates _ _ _ _ => 9
  | EvSetFanTuningStates _ _ _ => 10
  | EvTerminate _ => 11
  | EvCout _ | EvCoutRes _ _ | EvPause => 12
  end.

(** An event is in order when no event before it has a later stage. *)
Definition in_order (hist : list Event) (e : Event) : Prop :=
  Forall (fun c => (stage c <= stage e)%nat) hist.

(** The tests of [main] itself, from [Initialize] to the conversion of
    the interface. *)
Definition is_main_test (c : Event) : bool :=
  match kind c with
  | KInitialize | KAcquire => true
  | _ => false
  end.

(** The steps of [main] that a failed test skips: every call into the
    SDK except [Terminate]. *)
Definition is_step_call (e : Event) : bool :=
  negb (is_runtime e || is_terminate e).

(** An event is gated when every test that guards it, among the events
    before it, has passed. *)
Definition gated (hist : list Event) (e : Event) : Prop :=
  Forall (fun c => guards c e = true -> passed c = true) hist.

(** *** Properties of a log, event by event

    [always P hist tr]: every event of [tr] satisfies [P] together with
    its history, the events before it, most recent first; [hist] is the
    history of the first event of [tr]. *)
Fixpoint always (P : list Event -> Event -> Prop) (hist tr : list Event)
    : Prop :=
  match tr with
  | [] => True
  | e :: tr' => P hist e /\ always P (e :: hist) tr'
  end.

(** A computation keeps [P], given the invariant [Inv] of the history:
    run after a history with [Inv], every event it logs satisfies [P], and
    the history it leaves has [Inv] again. *)
Definition keeps (P : list Event -> Event -> Prop)
    (Inv : list Event -> Prop) {A} (m : M A) : Prop :=
  forall w hist,
    Inv hist ->
    always P hist (events (m w)) /\ Inv (rev (events (m w)) ++ hist).

(** What the SDK's documentation promises and the program relies on
    without a test: a call that reports success has filled its
    out-pointer, a list hands out its states, and its positions run from
    [Begin() = 0] to [End() = Size()], which is 5 wherever the program
    asks for [Begin] or [End]. *)
Definition documented (e : Event) : bool :=
  match e with
  | EvGetGPUTuningServices res out => ADLX_FAILED res || negb (isnull out)
  | EvGetGPUs res out => ADLX_FAILED res || negb (isnull out)
  | EvGetFanTuningStates _ res out =>
      negb (ADLX_SUCCEEDED res) || negb (isnull out)
  | EvBegin _ n => Nat.eqb n 0
  | EvEnd _ n => Nat.eqb n 5
  | EvStateAt _ _ _ out => negb (isnull out)
  | _ => true
  end.

(** The calls of the loop, after a history whose tests of the kinds that
    guard them have passed. *)
Definition element_ready (hist : list Event) : Prop :=
  Forall (fun c => guards_kind (kind c) KElement = true -> passed c = true)
         hist.

(** A history in which the tests of [main] have passed, and, with
    [zero = true], the calls of [SetZeroRPM] have been made. *)
Definition acquired (zero : bool) (hist : list Event) : Prop :=
  Forall (fun c =>
            match kind c with
            | KInitialize | KAcquire => passed c = true
            | KZeroSupport | KZeroState => zero = true
            | _ => False
            end) hist.

(** An event of the tuning phase, on the interface [mft] if on any. *)
Definition on_interface (mft : IADLXManualFanTuning) (e : Event) : Prop :=
  kind e <> KAcquire /\
  match receiver e with
  | Some m => m = mft
  | None => True
  end.

(** *** The sentences of the specification, word for word

    What the specification says where the program does something else;
    each is refuted on a run of the simulated SDK below. *)

(** Initialization, the retrieval of the GPU and the support check have
    succeeded. *)
Definition set_out_well (tr : list Event) : Prop :=
  (exists res, In (EvInitialize res) tr /\ ADLX_SUCCEEDED res = true) /\
  (exists gpus res gpu,
      In (EvGPUListAt gpus 0 res (Some gpu)) tr /\ ADLX_FAILED res = false) /\
  (exists svc gpu res,
      In (EvIsSupportedManualFanTuning svc gpu res true) tr /\
      ADLX_FAILED res = false).

(** Each of the five positions of a list is visited somewhere in the log. *)
Definition five_pairs_set (tr : list Event) : Prop :=
  exists l,
    forall idx, (idx < 5)%nat ->
      exists pre log post, tr = pre ++ log ++ post /\ visits l idx log.

Definition committed (tr : list Event) : Prop :=
  exists mft states res, In (EvSetFanTuningStates mft states res) tr.

(** "It mutates five fixed pairs and then commits the list, for every run
    in which initialization, GPU retrieval and the support check
    succeed." *)
Definition applies_fixed_curve (tr : list Event) : Prop :=
  set_out_well tr -> five_pairs_set tr /\ committed tr.

(** "When zero RPM is supported on the selected GPU, the zero-RPM state
    is set to disabled (false)." *)
Definition zero_rpm_set_to_disabled (tr : list Event) : Prop :=
  (exists mft res,
      In (EvIsSupportedZeroRPM mft res true) tr /\
      ADLX_FAILED res = false) ->
  exists mft res, In (EvSetZeroRPMState mft false res) tr.

(** The steps of the sequence of the specification: 1 initialize,
    2 fetch a GPU handle, 3 fetch a capability interface, 4 check support,
    5 mutate, 6 commit, 7 terminate.  Two interfaces are fetched;
    [services] tells which one is read as the capability interface: the
    GPU tuning services, or the manual fan tuning interface. *)
Definition spec_step (services : bool) (e : Event) : option nat :=
  match e with
  | EvInitialize _ => Some 1%nat
  | EvGetGPUs _ _ | EvGPUListAt _ _ _ _ => Some 2%nat
  | EvGetGPUTuningServices _ _ => if services then Some 3%nat else None
  | EvGetManualFanTuning _ _ _ _ | EvQueryInterface _ _ =>
      if services then None else Some 3%nat
  | EvIsSupportedManualFanTuning _ _ _ _ => Some 4%nat
  | EvIsValidFanTuningStates _ _ _ _ | EvSetFanTuningStates _ _ _ =>
      Some 6%nat
  | EvTerminate _ => Some 7%nat
  | EvCout _ | EvCoutRes _ _ | EvPause => None
  | _ => Some 5%nat
  end.

(** "The steps occur in exactly this order." *)
Definition in_spec_order (services : bool) (tr : list Event) : Prop :=
  forall pre c mid e post i j,
    tr = pre ++ c :: mid ++ e :: post ->
    spec_step services c = Some i -> spec_step services e = Some j ->
    (i <= j)%nat.

(** "No step executes unless every earlier step succeeded." *)
Definition steps_only_after_success (services : bool) (tr : list Event)
    : Prop :=
  forall pre c mid e post,
    tr = pre ++ c :: mid ++ e :: post ->
    spec_step services c <> None -> spec_step services e <> None ->
    passed c = true.

(** The result code a call returned. *)
Definition result_code (e : Event) : option ADLX_RESULT :=
  match e with
  | EvInitialize res | EvTerminate res | EvGetGPUTuningServices res _
  | EvGetGPUs res _ | EvGPUListAt _ _ res _
  | EvIsSupportedManualFanTuning _ _ res _ | EvGetManualFanTuning _ _ res _
  | EvIsSupportedZeroRPM _ res _ | EvGetZeroRPMState _ res _
  | EvSetZeroRPMState _ _ res | EvGetFanTuningStates _ res _
  | EvIsValidFanTuningStates _ _ res _ | EvSetFanTuningStates _ _ res
  | EvStateAt _ _ res _ | EvGetFanSpeed _ res _ | EvSetFanSpeed _ _ res
  | EvGetTemperature _ res _ | EvSetTemperature _ _ res => Some res
  | _ => None
  end.

(** [depends_on c e]: the call [e] works on what the call [c] returned:
    on the object it handed out, or, for a write, on the value it read. *)
Definition depends_on (c e : Event) : Prop :=
  match c, e with
  | EvGetGPUTuningServices _ out, EvIsSupportedManualFanTuning svc _ _ _
  | EvGetGPUTuningServices _ out, EvGetManualFanTuning svc _ _ _ =>
      out = Some svc
  | EvGetGPUs _ out, EvGPUListAt gpus _ _ _ => out = Some gpus
  | EvGPUListAt _ _ _ out, EvIsSupportedManualFanTuning _ gpu _ _
  | EvGPUListAt _ _ _ out, EvGetManualFanTuning _ gpu _ _ => out = gpu
  | EvGetManualFanTuning _ _ _ out, EvQueryInterface ifc _ => out = ifc
  | EvGetZeroRPMState mft _ _, EvSetZeroRPMState mft' _ _ => mft = mft'
  | EvGetFanTuningStates _ _ out, EvIsValidFanTuningStates _ states _ _
  | EvGetFanTuningStates _ _ out, EvSetFanTuningStates _ states _ =>
      out = states
  | EvGetFanTuningStates _ _ out, EvSize l _
  | EvGetFanTuningStates _ _ out, EvBegin l _
  | EvGetFanTuningStates _ _ out, EvEnd l _
  | EvGetFanTuningStates _ _ out, EvStateAt l _ _ _ => out = Some l
  | EvStateAt _ _ _ out, EvGetFanSpeed st _ _
  | EvStateAt _ _ _ out, EvSetFanSpeed st _ _
  | EvStateAt _ _ _ out, EvGetTemperature st _ _
  | EvStateAt _ _ _ out, EvSetTemperature st _ _ => out = Some st
  | EvGetFanSpeed st _ _, EvSetFanSpeed st' _ _ => st = st'
  | EvGetTemperature st _ _, EvSetTemperature st' _ _ => st = st'
  | EvIsValidFanTuningStates _ states _ _, EvSetFanTuningStates _ states' _ =>
      states = states'
  | _, _ => False
  end.

(** "For every SDK call that returns a result code, the result is checked,
    and a failed result prevents the subsequent dependent operations from
    executing." *)
Definition failure_stops_dependents (tr : list Event) : Prop :=
  forall pre c mid e post res,
    tr = pre ++ c :: mid ++ e :: post ->
    result_code c = Some res -> ADLX_FAILED res = true ->
    ~ depends_on c e.

End Vocabulary.

(** ** Vocabulary for the output, repeated calls, the loop and the handles *)

Section Conduct.

Context {sdk : ADLX}.

(** *** Output

    The message [main] prints when the test on the answer of a call
    fails: lines 101, 47, 56, 65, 74, 83 and 92. *)
Definition failure_message (c : Event) : option string :=
  match c with
  | EvInitialize _ => Some (tab ++ "g_ADLXHelp initialize failed")%string
  | EvGetGPUTuningServices _ _ =>
      Some (tab ++ "Get GPU tuning services failed")%string
  | EvGetGPUs _ _ => Some (tab ++ "Get GPU list failed")%string
  | EvGPUListAt _ _ _ _ => Some (tab ++ "Get GPU failed")%string
  | EvIsSupportedManualFanTuning _ _ _ _ =>
      Some (tab ++ "This GPU doesn't supported manual fan tuning")%string
  | EvGetManualFanTuning _ _ _ _ =>
      Some (tab ++ "Get manual fan tuning interface failed")%string
  | EvQueryInterface _ _ => Some (tab ++ "Get manual fan tuning failed")%string
  | _ => None
  end.

(** The end of a run whose test on [c] has failed: after [Initialize],
    the message and the pause; after any later call, ADLX is destroyed
    first and the result of that is printed. *)
Definition farewell (c : Event) (msg : string) (tail : list Event) : Prop :=
  match c with
  | EvInitialize _ => tail = [EvCout msg; EvPause]
  | _ =>
      exists r,
        tail = [EvTerminate r; EvCoutRes "Destroy ADLX res: " r;
                EvCout msg; EvPause]
  end.

(** *** Repeated calls

    [same_method a b]: [a] and [b] are two calls of the same method, among
    the calls the program writes out and the log records.  (The log has no
    event for the accessor [g_ADLXHelp.GetSystemServices()], which is
    evaluated inside [GetGPUTuningServices] and inside [GetGPUs], lines 41
    and 50, nor for what the smart pointers do on their own.) *)
Definition same_method (a b : Event) : bool :=
  match a, b with
  | EvInitialize _, EvInitialize _
  | EvTerminate _, EvTerminate _
  | EvGetGPUTuningServices _ _, EvGetGPUTuningServices _ _
  | EvGetGPUs _ _, EvGetGPUs _ _
  | EvGPUListAt _ _ _ _, EvGPUListAt _ _ _ _
  | EvIsSupportedManualFanTuning _ _ _ _, EvIsSupportedManualFanTuning _ _ _ _
  | EvGetManualFanTuning _ _ _ _, EvGetManualFanTuning _ _ _ _
  | EvQueryInterface _ _, EvQueryInterface _ _
  | EvIsSupportedZeroRPM _ _ _, EvIsSupportedZeroRPM _ _ _
  | EvGetZeroRPMState _ _ _, EvGetZeroRPMState _ _ _
  | EvSetZeroRPMState _ _ _, EvSetZeroRPMState _ _ _
  | EvGetFanTuningStates _ _ _, EvGetFanTuningStates _ _ _
  | EvIsValidFanTuningStates _ _ _ _, EvIsValidFanTuningStates _ _ _ _
  | EvSetFanTuningStates _ _ _, EvSetFanTuningStates _ _ _
  | EvSize _ _, EvSize _ _
  | EvBegin _ _, EvBegin _ _
  | EvEnd _ _, EvEnd _ _
  | EvStateAt _ _ _ _, EvStateAt _ _ _ _
  | EvGetFanSpeed _ _ _, EvGetFanSpeed _ _ _
  | EvSetFanSpeed _ _ _, EvSetFanSpeed _ _ _
  | EvGetTemperature _ _ _, EvGetTemperature _ _ _
  | EvSetTemperature _ _ _, EvSetTemperature _ _ _ => true
  | _, _ => false
  end.

(** The calls of the [for] loop of [SetFan], lines 163-184: its condition
    and its body. *)
Definition is_loop_call (e : Event) : bool :=
  match e with
  | EvEnd _ _ | EvStateAt _ _ _ _ => true
  | _ => is_state_read e || is_state_write e
  end.

(** A call outside the loop has not been made before. *)
Definition not_repeated (hist : list Event) (e : Event) : Prop :=
  is_loop_call e = false -> Forall (fun c => same_method c e = false) hist.

(** *** The positions of the loop

    The value of [crt] after a history: what [Begin()] answered, and one
    more after each [At(crt)]. *)
Fixpoint next_position (hist : list Event) : option nat :=
  match hist with
  | [] => None
  | EvBegin _ n :: _ => Some n
  | EvStateAt _ idx _ _ :: _ => Some (S idx)
  | _ :: hist' => next_position hist'
  end.

(** [At(idx)] is in sequence when [idx] is the value of [crt], and the
    call just before it is the [End()] of the same list, which answered
    something else. *)
Definition in_sequence (hist : list Event) (e : Event) : Prop :=
  match e with
  | EvStateAt l idx _ _ =>
      exists n hist',
        hist = EvEnd l n :: hist' /\ n <> idx /\
        next_position hist' = Some idx
  | _ => True
  end.

(** The position of an [At], and none for another call. *)
Definition position (e : Event) : option nat :=
  match e with
  | EvStateAt _ idx _ _ => Some idx
  | _ => None
  end.

(** The positions of a list of five states, as far as the loop asks for
    them: [Begin()] answers a position of the list or its end, and
    [End()] answers 5. *)
Definition five_positions (e : Event) : bool :=
  match e with
  | EvBegin _ n => Nat.leb n 5
  | EvEnd _ n => Nat.eqb n 5
  | _ => true
  end.

(** *** Handles

    Every object of a call, the receiver as well as a handle passed as an
    argument, is one the SDK has handed out before, in the history
    [hist]:
    - the GPU list is what [GetGPUs] returned;
    - the tuning services are what [GetGPUTuningServices] returned, and
      the GPU given to them is what [At] of the GPU list returned;
    - the interface converted is what [GetManualFanTuning] returned;
    - the manual fan tuning interface is what the conversion returned;
    - the list of states is what [GetFanTuningStates] returned, also
      where it is validated and committed, through the same interface;
    - a state is what the latest [At] of the list of states returned.
    The four calls on the global [g_ADLXHelp], and the C++ runtime, have
    no such object. *)
Definition handed_out (hist : list Event) (e : Event) : Prop :=
  match e with
  | EvInitialize _ | EvTerminate _
  | EvGetGPUTuningServices _ _ | EvGetGPUs _ _ => True
  | EvGPUListAt gpus _ _ _ =>
      exists res, In (EvGetGPUs res (Some gpus)) hist
  | EvIsSupportedManualFanTuning svc gpu _ _
  | EvGetManualFanTuning svc gpu _ _ =>
      (exists res, In (EvGetGPUTuningServices res (Some svc)) hist) /\
      (exists gpus idx res, In (EvGPUListAt gpus idx res gpu) hist)
  | EvQueryInterface ifc _ =>
      exists svc gpu res, In (EvGetManualFanTuning svc gpu res ifc) hist
  | EvIsSupportedZeroRPM mft _ _ | EvGetZeroRPMState mft _ _
  | EvSetZeroRPMState mft _ _ | EvGetFanTuningStates mft _ _ =>
      exists ifc, In (EvQueryInterface ifc (Some mft)) hist
  | EvIsValidFanTuningStates mft states _ _
  | EvSetFanTuningStates mft states _ =>
      (exists ifc, In (EvQueryInterface ifc (Some mft)) hist) /\
      (exists res, In (EvGetFanTuningStates mft res states) hist)
  | EvSize l _ | EvBegin l _ | EvEnd l _ | EvStateAt l _ _ _ =>
      exists mft res, In (EvGetFanTuningStates mft res (Some l)) hist
  | EvGetFanSpeed st _ _ | EvSetFanSpeed st _ _
  | EvGetTemperature st _ _ | EvSetTemperature st _ _ =>
      exists idx, current_state hist = Some (idx, Some st)
  | EvCout _ | EvCoutRes _ _ | EvPause => True
  end.

(** A history in which the list [l] has been fetched. *)
Definition fetched (l : IADLXManualFanTuningStateList) (hist : list Event)
    : Prop :=
  exists mft res, In (EvGetFanTuningStates mft res (Some l)) hist.

(** *** Pointers used without a test

    The out-pointers the program dereferences without a null check, lines
    59, 159 and 168: [left_null e] when the call [e] has passed the test
    on its result, if there is one, and has left such a pointer null. *)
Definition left_null (e : Event) : bool :=
  match e with
  | EvGetGPUs res out => negb (ADLX_FAILED res) && isnull out
  | EvGetFanTuningStates _ res out => ADLX_SUCCEEDED res && isnull out
  | EvStateAt _ _ _ out => isnull out
  | _ => false
  end.

End Conduct.

(** ** A simulated SDK

    One implementation of the interface, to run the program on: a machine
    with a list of GPUs of which each has the same fan, scripted with the
    result code of every call that can fail.  The handle of a GPU, of its
    interface and of its manual fan tuning is the GPU's number; the handle
    of a fan-tuning state is its position in the list. *)

Module Sim.

Inductive Result : Type :=
| ADLX_OK
| ADLX_ALREADY_ENABLED
| ADLX_ALREADY_INITIALIZED
| ADLX_FAIL
| ADLX_INVALID_ARGS
| ADLX_NOT_SUPPORTED.

Definition succeeded (r : Result) : bool :=
  match r with
  | ADLX_OK | ADLX_ALREADY_ENABLED | ADLX_ALREADY_INITIALIZED => true
  | _ => false
  end.

Definition failed (r : Result) : bool := negb (succeeded r).

(** What the calls answer. *)
Record Script : Type := mkScript {
  initialize_res : Result;
  tuning_services_res : Result;
  gpus_res : Result;
  gpus : list nat;
  support_res : Result;
  supported : bool;
  interface_res : Result;
  zero_rpm_support_res : Result;
  zero_rpm_supported : bool;
  zero_rpm_get_res : Result;
  states_res : Result;
  state_read_res : Result;
  valid_res : Result
}.

(** The state of the device: the zero-RPM setting, the list of
    (speed, temperature) states being edited, the curve last committed,
    and how often ADLX was destroyed. *)
Record Machine : Type := mkMachine {
  script : Script;
  zero_rpm : bool;
  states : list (Z * Z);
  committed : option (list (Z * Z));
  destroyed : nat
}.

Definition set_zero_rpm (b : bool) (m : Machine) : Machine :=
  mkMachine (script m) b (states m) (committed m) (destroyed m).

Definition set_states (l : list (Z * Z)) (m : Machine) : Machine :=
  mkMachine (script m) (zero_rpm m) l (committed m) (destroyed m).

Definition commit (m : Machine) : Machine :=
  mkMachine (script m) (zero_rpm m) (states m) (Some (states m)) (destroyed m).

Definition destroy (m : Machine) : Machine :=
  mkMachine (script m) (zero_rpm m) (states m) (committed m) (S (destroyed m)).

(** An out-pointer is filled exactly when the call succeeds. *)
Definition hand_out {H} (r : Result) (h : H) : Result * option H :=
  (r, if succeeded r then Some h else None).

Fixpoint update {A} (l : list A) (i : nat) (f : A -> A) : list A :=
  match l, i with
  | [], _ => []
  | x :: l', O => f x :: l'
  | x :: l', S i' => x :: update l' i' f
  end.

Definition list_at (m : Machine) (i : nat) : Result * option nat :=
  if Nat.ltb i (List.length (states m)) then (ADLX_OK, Some i)
  else (ADLX_INVALID_ARGS, None).

Definition gpu_at (m : Machine) (i : nat) : Result * option nat :=
  match nth_error (gpus (script m)) i with
  | Some g => (ADLX_OK, Some g)
  | None => (ADLX_INVALID_ARGS, None)
  end.

Definition get_state (proj : Z * Z -> Z) (m : Machine) (i : nat)
    : Result * Z :=
  match nth_error (states m) i with
  | Some st =>
      (state_read_res (script m),
       if succeeded (state_read_res (script m)) then proj st else 0)
  | None => (ADLX_INVALID_ARGS, 0)
  end.

Definition interface_of (m : Machine) (gpu : option nat)
    : Result * option nat :=
  match gpu with
  | Some g => hand_out (interface_res (script m)) g
  | None => (ADLX_INVALID_ARGS, None)
  end.

(** An out-parameter is written exactly when the call succeeds. *)
Definition read_zero_rpm (m : Machine) : Result * bool :=
  (zero_rpm_get_res (script m),
   if succeeded (zero_rpm_get_res (script m)) then zero_rpm m else false).

Definition validate (m : Machine) (l : option unit) : Result * Z :=
  match l with
  | Some _ => (valid_res (script m), 0)
  | None => (ADLX_INVALID_ARGS, 0)
  end.

Definition apply_states (m : Machine) (l : option unit) : Result * Machine :=
  match l with
  | Some _ => (ADLX_OK, commit m)
  | None => (ADLX_INVALID_ARGS, m)
  end.

#[export] Instance sdk : ADLX := {|
  ADLX_RESULT := Result;
  ADLX_SUCCEEDED := succeeded;
  ADLX_FAILED := failed;
  IADLXGPUTuningServices := unit;
  IADLXGPUList := unit;
  IADLXGPU := nat;
  IADLXInterface := nat;
  IADLXManualFanTuning := nat;
  IADLXManualFanTuningStateList := unit;
  IADLXManualFanTuningState := nat;
  World := Machine;
  Initialize := fun m => (initialize_res (script m), m);
  Terminate := fun m => (ADLX_OK, destroy m);
  GetGPUTuningServices :=
    fun m => (hand_out (tuning_services_res (script m)) tt, m);
  GetGPUs := fun m => (hand_out (gpus_res (script m)) tt, m);
  GPUList_At := fun _ i m => (gpu_at m i, m);
  IsSupportedManualFanTuning :=
    fun _ _ m => ((support_res (script m), supported (script m)), m);
  GetManualFanTuning := fun _ gpu m => (interface_of m gpu, m);
  QueryInterface := fun ifc m => (ifc, m);
  IsSupportedZeroRPM :=
    fun _ m =>
      ((zero_rpm_support_res (script m), zero_rpm_supported (script m)), m);
  GetZeroRPMState := fun _ m => (read_zero_rpm m, m);
  SetZeroRPMState := fun _ b m => (ADLX_OK, set_zero_rpm b m);
  GetFanTuningStates := fun _ m => (hand_out (states_res (script m)) tt, m);
  IsValidFanTuningStates := fun _ l m => (validate m l, m);
  SetFanTuningStates := fun _ l m => apply_states m l;
  StateList_Size := fun _ m => (List.length (states m), m);
  StateList_Begin := fun _ m => (O, m);
  StateList_End := fun _ m => (List.length (states m), m);
  StateList_At := fun _ i m => (list_at m i, m);
  GetFanSpeed := fun i m => (get_state fst m i, m);
  SetFanSpeed :=
    fun i v m =>
      (ADLX_OK, set_states (update (states m) i (fun st => (v, snd st))) m);
  GetTemperature := fun i m => (get_state snd m i, m);
  SetTemperature :=
    fun i v m =>
      (ADLX_OK, set_states (update (states m) i (fun st => (fst st, v))) m)
|}.

(** [main] on a machine. *)
Definition run (m : Machine) : Run Z := main m.

(** Every call succeeds, one GPU, zero RPM supported. *)
Definition all_ok : Script :=
  mkScript ADLX_OK ADLX_OK ADLX_OK [7%nat] ADLX_OK true ADLX_OK ADLX_OK true
           ADLX_OK ADLX_OK ADLX_OK ADLX_OK.

(** A fan with five states, zero RPM on. *)
Definition stock_curve : list (Z * Z) :=
  [(20, 40); (30, 55); (50, 70); (70, 85); (100, 95)].

Definition healthy : Machine := mkMachine all_ok true stock_curve None 0.

(** A fan with four states. *)
Definition four_states : Machine :=
  mkMachine all_ok true [(20, 40); (30, 55); (50, 70); (100, 95)] None 0.

(** A GPU whose fan cannot be tuned by hand. *)
Definition unsupported : Machine :=
  mkMachine
    (mkScript ADLX_OK ADLX_OK ADLX_OK [7%nat] ADLX_OK false ADLX_OK ADLX_OK
              true ADLX_OK ADLX_OK ADLX_OK ADLX_OK)
    true stock_curve None 0.

(** A machine without a GPU. *)
Definition no_gpu : Machine :=
  mkMachine
    (mkScript ADLX_OK ADLX_OK ADLX_OK [] ADLX_OK true ADLX_OK ADLX_OK
              true ADLX_OK ADLX_OK ADLX_OK ADLX_OK)
    true stock_curve None 0.

(** A driver that fails to read the speed and the temperature of a
    state. *)
Definition flaky : Machine :=
  mkMachine
    (mkScript ADLX_OK ADLX_OK ADLX_OK [7%nat] ADLX_OK true ADLX_OK ADLX_OK
              true ADLX_OK ADLX_OK ADLX_FAIL ADLX_OK)
    true stock_curve None 0.

(** A driver that fails to read the zero-RPM state, which is on. *)
Definition blind : Machine :=
  mkMachine
    (mkScript ADLX_OK ADLX_OK ADLX_OK [7%nat] ADLX_OK true ADLX_OK ADLX_OK
              true ADLX_FAIL ADLX_OK ADLX_OK ADLX_OK)
    true stock_curve None 0.

(** A driver that rejects the list of states. *)
Definition picky : Machine :=
  mkMachine
    (mkScript ADLX_OK ADLX_OK ADLX_OK [7%nat] ADLX_OK true ADLX_OK ADLX_OK
              true ADLX_OK ADLX_OK ADLX_OK ADLX_INVALID_ARGS)
    true stock_curve None 0.

(** A driver that fails to hand out the list of states. *)
Definition deaf : Machine :=
  mkMachine
    (mkScript ADLX_OK ADLX_OK ADLX_OK [7%nat] ADLX_OK true ADLX_OK ADLX_OK
              true ADLX_OK ADLX_FAIL ADLX_OK ADLX_OK)
    true stock_curve None 0.

(** The SDK cannot be initialized. *)
Definition absent : Machine :=
  mkMachine
    (mkScript ADLX_FAIL ADLX_OK ADLX_OK [7%nat] ADLX_OK true ADLX_OK ADLX_OK
              true ADLX_OK ADLX_OK ADLX_OK ADLX_OK)
    true stock_curve None 0.

(** A fan that already has the program's curve, zero RPM off. *)
Definition tuned : Machine :=
  mkMachine all_ok false [(25, 45); (45, 50); (50, 65); (65, 85); (90, 95)]
            None 0.

End Sim.

(** ** An SDK that hands out nothing

    Every call reports success, and every out-pointer stays null. *)

Module Hollow.

Definition sdk : ADLX := {|
  ADLX_RESULT := unit;
  ADLX_SUCCEEDED := fun _ => true;
  ADLX_FAILED := fun _ => false;
  IADLXGPUTuningServices := unit;
  IADLXGPUList := unit;
  IADLXGPU := unit;
  IADLXInterface := unit;
  IADLXManualFanTuning := unit;
  IADLXManualFanTuningStateList := unit;
  IADLXManualFanTuningState := unit;
  World := unit;
  Initialize := fun w => (tt, w);
  Terminate := fun w => (tt, w);
  GetGPUTuningServices := fun w => ((tt, None), w);
  GetGPUs := fun w => ((tt, None), w);
  GPUList_At := fun _ _ w => ((tt, None), w);
  IsSupportedManualFanTuning := fun _ _ w => ((tt, true), w);
  GetManualFanTuning := fun _ _ w => ((tt, None), w);
  QueryInterface := fun _ w => (None, w);
  IsSupportedZeroRPM := fun _ w => ((tt, true), w);
  GetZeroRPMState := fun _ w => ((tt, false), w);
  SetZeroRPMState := fun _ _ w => (tt, w);
  GetFanTuningStates := fun _ w => ((tt, None), w);
  IsValidFanTuningStates := fun _ _ w => ((tt, 0), w);
  SetFanTuningStates := fun _ _ w => (tt, w);
  StateList_Size := fun _ w => (O, w);
  StateList_Begin := fun _ w => (O, w);
  StateList_End := fun _ w => (O, w);
  StateList_At := fun _ _ w => ((tt, None), w);
  GetFanSpeed := fun _ w => ((tt, 0), w);
  SetFanSpeed := fun _ _ w => (tt, w);
  GetTemperature := fun _ w => ((tt, 0), w);
  SetTemperature := fun _ _ w => (tt, w)
|}.

(** [main] on it. *)
Definition run : Run Z := @main sdk tt.

End Hollow.

(** ** Reasoning about runs *)

Section Runs.

Context {sdk : ADLX}.

Lemma events_bind {A B} (m : M A) (k : A -> M B) (w : World) :
  events (bind m k w) =
  events (m w) ++
  match result (m w) with
  | Some a => events (k a (final (m w)))
  | None => []
  end.
Proof.
  unfold bind. destruct (m w) as [[a|] t1 w1]; simpl; auto using app_nil_r.
  destruct (k a w1); reflexivity.
Qed.

Lemma result_bind {A B} (m : M A) (k : A -> M B) (w : World) :
  result (bind m k w) =
  match result (m w) with
  | Some a => result (k a (final (m w)))
  | None => None
  end.
Proof.
  unfold bind. destruct (m w) as [[a|] t1 w1]; simpl; auto.
  destruct (k a w1); reflexivity.
Qed.

Lemma call_eq {R} (method : World -> R * World) (ev : R -> Event) w :
  call method ev w =
  mkRun (Some (fst (method w))) [ev (fst (method w))] (snd (method w)).
Proof. unfold call. destruct (method w); reflexivity. Qed.

(** *** Properties of a log, event by event *)

Lemma always_app P hist t1 t2 :
  always P hist (t1 ++ t2) <->
  always P hist t1 /\ always P (rev t1 ++ hist) t2.
Proof.
  revert hist. induction t1 as [|e t1 IH]; intros hist; simpl.
  - tauto.
  - rewrite IH, <- app_assoc. simpl. tauto.
Qed.

Lemma always_split P tr :
  always P [] tr <->
  (forall pre e post, tr = pre ++ e :: post -> P (rev pre) e).
Proof.
  assert (G : forall hist,
             always P hist tr <->
             (forall pre e post,
                 tr = pre ++ e :: post -> P (rev pre ++ hist) e)).
  { induction tr as [|x tr IH]; intros hist; simpl.
    - split; [intros _ [|? ?] ? ? H; discriminate H | trivial].
    - rewrite IH. split.
      + intros [H0 H] [|y pre] e post E; simpl in *; inversion E; subst.
        * exact H0.
        * rewrite <- app_assoc. simpl. eapply H. reflexivity.
      + intros H. split.
        * apply (H [] x tr). reflexivity.
        * intros pre e post E. subst tr.
          specialize (H (x :: pre) e post eq_refl). simpl in H.
          rewrite <- app_assoc in H. exact H. }
  rewrite G. split; intros H pre e post E.
  - rewrite <- (app_nil_r (rev pre)). eauto.
  - rewrite app_nil_r. eauto.
Qed.

Lemma always_impl (P Q : list Event -> Event -> Prop) hist tr :
  (forall h e, P h e -> Q h e) -> always P hist tr -> always Q hist tr.
Proof.
  intros PQ. revert hist. induction tr; simpl; intuition auto.
Qed.

Lemma always_Forall (Q : Event -> Prop) hist tr :
  always (fun _ e => Q e) hist tr <-> Forall Q tr.
Proof.
  revert hist. induction tr as [|e tr IH]; intros hist; simpl.
  - intuition auto.
  - rewrite IH, Forall_cons_iff. tauto.
Qed.

Section Keeps.

Variable P : list Event -> Event -> Prop.
Variable Inv : list Event -> Prop.

Lemma keeps_ret {A} (a : A) : keeps P Inv (ret a).
Proof. intros w hist H. simpl. auto. Qed.

Lemma keeps_crash {A} : keeps P Inv (@crash _ A).
Proof. intros w hist H. simpl. auto. Qed.

Lemma keeps_bind {A B} (m : M A) (k : A -> M B) :
  keeps P Inv m -> (forall a, keeps P Inv (k a)) -> keeps P Inv (bind m k).
Proof.
  intros Hm Hk w hist H. rewrite events_bind.
  destruct (Hm w hist H) as [H1 H2].
  destruct (result (m w)) as [a|].
  - destruct (Hk a (final (m w)) _ H2) as [H3 H4].
    rewrite always_app, rev_app_distr, <- app_assoc. auto.
  - rewrite app_nil_r. auto.
Qed.

Lemma keeps_call {R} (method : World -> R * World) (ev : R -> Event) :
  (forall r hist, Inv hist -> P hist (ev r) /\ Inv (ev r :: hist)) ->
  keeps P Inv (call method ev).
Proof.
  intros H w hist Hi. unfold call. destruct (method w) as [r w'].
  simpl. destruct (H r hist Hi). auto.
Qed.

Lemma keeps_emit e :
  (forall hist, Inv hist -> P hist e /\ Inv (e :: hist)) ->
  keeps P Inv (emit e).
Proof.
  intros H w hist Hi. simpl. destruct (H hist Hi). auto.
Qed.

Lemma keeps_deref {H} (p : option H) : keeps P Inv (deref p).
Proof. destruct p; [apply keeps_ret | apply keeps_crash]. Qed.

Lemma keeps_index a i : keeps P Inv (index a i).
Proof.
  unfold index. destruct (nth_error a i); [apply keeps_ret | apply keeps_crash].
Qed.

Lemma keeps_if {A} (c : bool) (m1 m2 : M A) :
  keeps P Inv m1 -> keeps P Inv m2 -> keeps P Inv (if c then m1 else m2).
Proof. destruct c; auto. Qed.

Lemma keeps_loop l :
  keeps P Inv (call (StateList_End l) (EvEnd l)) ->
  (forall crt, keeps P Inv (SetFan_body l crt)) ->
  forall fuel crt, keeps P Inv (SetFan_loop fuel l crt).
Proof.
  intros HE HB fuel.
  induction fuel as [|fuel IH]; intros crt; simpl;
    (apply keeps_bind; [apply HE | intros e]);
    apply keeps_if; auto using keeps_ret, keeps_crash.
  apply keeps_bind; auto.
Qed.

End Keeps.

(** *** Symbolic execution: unfold the monad, split on every test. *)

Ltac exec_atom c :=
  lazymatch c with
  | context [if _ then _ else _] => fail
  | context [match _ with _ => _ end] => fail
  | ?a || _ => exec_atom a
  | negb ?a => exec_atom a
  | isnull ?p => destruct p eqn:?
  | _ => destruct c eqn:?
  end.

Ltac exec_step :=
  match goal with
  | |- context [if ?c then _ else _] => exec_atom c
  | |- context [match ?c with _ => _ end] => exec_atom c
  end.

Ltac exec_cbn :=
  cbv beta iota zeta delta [bind call emit ret crash index deref];
  cbn [isnull negb orb result events final fst snd app nth_error
       FanSpeed Temperature].

Ltac exec := repeat (exec_cbn; try exec_step).

Ltac bool_false :=
  cbn [negb orb andb]; rewrite ?andb_false_r; reflexivity.

(** Back from [m w = mkRun r t w'] to the projections of [m w]. *)
Ltac unrun :=
  repeat match goal with
         | H : ?m = {| result := ?r; events := ?t; final := ?w |} |- _ =>
             let Hr := fresh "Hr" in
             let Ht := fresh "Ht" in
             let Hw := fresh "Hw" in
             assert (Hr : result m = r) by (rewrite H; reflexivity);
             assert (Ht : events m = t) by (rewrite H; reflexivity);
             assert (Hw : final m = w) by (rewrite H; reflexivity);
             clear H; try subst t; try subst w
         end.

Ltac use_eqs :=
  repeat match goal with
         | H : ?x = _ |- context [?x] => rewrite H
         end.

(** ** The loop of [SetFan] *)

(** An iteration that starts past the end of the arrays does not finish:
    it stops at [FanSpeed[crt]], or earlier at a null [oneState]. *)
Lemma SetFan_body_out_of_range l crt w :
  (5 <= crt)%nat -> result (SetFan_body l crt w) = None.
Proof.
  intros H. unfold SetFan_body, index.
  rewrite (proj2 (nth_error_None FanSpeed crt)) by (simpl; lia).
  exec; reflexivity.
Qed.

(** Fuel is never what stops the loop: beyond the number of iterations
    that can start, [6 - crt] from a position inside the arrays and one
    from a position past them, more fuel changes nothing. *)
Lemma SetFan_loop_fuel f1 f2 l crt w :
  (Nat.max 1 (6 - crt) <= f1)%nat -> (Nat.max 1 (6 - crt) <= f2)%nat ->
  SetFan_loop f1 l crt w = SetFan_loop f2 l crt w.
Proof.
  revert f2 crt w.
  induction f1 as [|f1 IH]; intros f2 crt w H1 H2; [lia|].
  destruct f2 as [|f2]; [lia|].
  cbn [SetFan_loop]. unfold bind at 1 3, call.
  destruct (StateList_End l w) as [e w1].
  destruct (Nat.eqb crt e); [reflexivity|].
  unfold bind.
  destruct (le_lt_dec 5 crt) as [Hc|Hc].
  - pose proof (SetFan_body_out_of_range l w1 Hc) as Hb.
    destruct (SetFan_body l crt w1) as [r t w2]. simpl in Hb. subst r.
    reflexivity.
  - destruct (SetFan_body l crt w1) as [[[]|] t w2]; [|reflexivity].
    rewrite (IH f2) by lia. reflexivity.
Qed.

(** ** Termination of the run *)

Lemma SetZeroRPM_returns mft enabled w :
  result (SetZeroRPM (Some mft) enabled w) = Some tt.
Proof. unfold SetZeroRPM. exec; reflexivity. Qed.

Lemma SetFan_body_crash l crt w :
  (crt < 5)%nat ->
  result (SetFan_body l crt w) = None ->
  forallb documented (events (SetFan_body l crt w)) = false.
Proof.
  intros Hc. unfold SetFan_body.
  destruct crt as [|[|[|[|[|crt]]]]]; try lia.
  all: exec; try discriminate.
  all: intros _; reflexivity.
Qed.

Lemma SetFan_loop_crash fuel l crt w :
  (crt <= 5)%nat -> (6 <= crt + fuel)%nat ->
  result (SetFan_loop fuel l crt w) = None ->
  forallb documented (events (SetFan_loop fuel l crt w)) = false.
Proof.
  revert crt w.
  induction fuel as [|fuel IH]; intros crt w Hc Hf; [lia|].
  cbn [SetFan_loop].
  rewrite result_bind, events_bind, !call_eq. cbn [result events final].
  set (e := fst (StateList_End l w)). set (w1 := snd (StateList_End l w)).
  destruct (Nat.eqb_spec crt e) as [E|E]; [discriminate|].
  rewrite result_bind, events_bind. cbn [app forallb documented].
  rewrite !forallb_app. intros H.
  destruct (Nat.eqb_spec e 5) as [E5|E5]; [|reflexivity].
  assert (Hc' : (crt < 5)%nat) by lia.
  pose proof (SetFan_body_crash l w1 Hc') as Hb.
  destruct (result (SetFan_body l crt w1)).
  - rewrite (IH (S crt)) by (assumption || lia).
    rewrite !andb_false_r. reflexivity.
  - rewrite Hb by reflexivity. reflexivity.
Qed.

Lemma SetFan_crash mft w :
  result (SetFan (Some mft) w) = None ->
  forallb documented (events (SetFan (Some mft) w)) = false.
Proof.
  unfold SetFan. exec; try discriminate; intros _.
  all: cbn [forallb documented isnull]; use_eqs; try reflexivity.
  match goal with
  | |- context [Nat.eqb ?n 0] => destruct (Nat.eqb_spec n 0) as [E|E]
  end; cbn [negb orb andb]; [|reflexivity].
  unrun. subst. apply SetFan_loop_crash; assumption || lia.
Qed.

(** ** What [SetZeroRPM] and [SetFan] call *)

Ltac keeps_step :=
  lazymatch goal with
  | |- keeps _ _ (bind _ _) => apply keeps_bind; [|intros ?]
  | |- keeps _ _ (call _ _) => apply keeps_call; intros ? ? ?
  | |- keeps _ _ (emit _) => apply keeps_emit; intros ? ?
  | |- keeps _ _ (ret _) => apply keeps_ret
  | |- keeps _ _ crash => apply keeps_crash
  | |- keeps _ _ (deref _) => apply keeps_deref
  | |- keeps _ _ (index _ _) => apply keeps_index
  | |- keeps _ _ (if _ then _ else _) => apply keeps_if
  | |- keeps _ _ (match ?x with (_, _) => _ end) => destruct x
  | |- keeps _ _ (SetFan_loop _ _ _) => apply keeps_loop; [|intros ?]
  | |- keeps _ _ (SetFan_body _ _) => unfold SetFan_body
  end.

Lemma keeps_Forall (Q : Event -> Prop) {A} (m : M A) w :
  keeps (fun _ e => Q e) (fun _ => True) m -> Forall Q (events (m w)).
Proof. intros H. apply (always_Forall Q []), (H w [] I). Qed.

Lemma SetZeroRPM_zero_rpm p enabled w :
  Forall (fun e => is_zero_rpm e = true) (events (SetZeroRPM p enabled w)).
Proof.
  apply keeps_Forall. unfold SetZeroRPM. repeat keeps_step; auto.
Qed.

Lemma SetFan_fan_curve p w :
  Forall (fun e => is_fan_curve e = true) (events (SetFan p w)).
Proof.
  apply keeps_Forall. unfold SetFan. repeat keeps_step; auto.
Qed.

(** ** Every call lies behind the tests that guard it *)

Lemma gated_nil e : gated [] e.
Proof. constructor. Qed.

Lemma gated_cons c hist e :
  (guards c e = true -> passed c = true) -> gated hist e ->
  gated (c :: hist) e.
Proof. intros; constructor; assumption. Qed.

Lemma element_gated hist e :
  kind e = KElement -> element_ready hist ->
  gated hist e /\ element_ready (e :: hist).
Proof.
  intros K H. split.
  - unfold gated, guards. rewrite K. exact H.
  - constructor; [rewrite K; discriminate | exact H].
Qed.

Lemma SetFan_loop_gated fuel l crt :
  keeps gated element_ready (SetFan_loop fuel l crt).
Proof.
  repeat keeps_step; auto using element_gated.
Qed.

Lemma SetFan_loop_element fuel l crt w :
  Forall (fun e => is_element e = true) (events (SetFan_loop fuel l crt w)).
Proof.
  apply keeps_Forall. repeat keeps_step; auto.
Qed.

Lemma SetFan_loop_kind fuel l crt w :
  Forall (fun e => kind e = KElement) (events (SetFan_loop fuel l crt w)).
Proof.
  apply keeps_Forall. repeat keeps_step; auto.
Qed.

Ltac gate_one :=
  unfold guards; cbn [kind guards_kind passed];
  first [ discriminate
        | intros _; cbn [isnull negb orb]; use_eqs; reflexivity ].

Ltac gate_hist H :=
  eapply Forall_impl; [|exact H];
  let c := fresh "c" in
  intros c; unfold guards; cbn [kind guards_kind];
  destruct (kind c); cbn [guards_kind];
  intros; try discriminate; try assumption; try contradiction.

Ltac gate_loop :=
  eapply Forall_impl; [|apply SetFan_loop_kind];
  let c := fresh "c" in
  let K := fresh "K" in
  intros c K; unfold guards; rewrite K; cbn [kind guards_kind]; discriminate.

Ltac gate H :=
  unfold gated;
  repeat first
    [ apply Forall_nil
    | apply Forall_cons; [gate_one|]
    | apply Forall_app; split; [apply Forall_rev; gate_loop|]
    | gate_hist H ].

Ltac split_always :=
  repeat first [progress cbn [always app] | rewrite always_app];
  repeat split.

Lemma SetZeroRPM_gated mft enabled w hist :
  acquired false hist ->
  always gated hist (events (SetZeroRPM (Some mft) enabled w)).
Proof.
  intros H. unfold SetZeroRPM. exec; split_always; gate H.
Qed.

Lemma SetFan_gated mft w hist :
  acquired true hist -> always gated hist (events (SetFan (Some mft) w)).
Proof.
  intros H. unfold SetFan. exec; unrun; subst; split_always.
  all: try solve [gate H].
  all: apply SetFan_loop_gated; unfold element_ready.
  all: repeat (apply Forall_cons; [gate_one|]); gate_hist H.
Qed.

Lemma zero_rpm_events_acquired tr hist :
  Forall (fun e => is_zero_rpm e = true) tr ->
  acquired false hist -> acquired true (rev tr ++ hist).
Proof.
  intros Hz H. apply Forall_app. split.
  - apply Forall_rev. eapply Forall_impl; [|exact Hz].
    intros []; simpl; congruence.
  - eapply Forall_impl; [|exact H].
    intros c. cbv beta. destruct (kind c); intros; auto; discriminate.
Qed.

Lemma gated_skip (q : Event -> bool) tr hist e :
  (forall c, q c = true -> guards c e = false) ->
  Forall (fun c => q c = true) tr ->
  gated hist e -> gated (rev tr ++ hist) e.
Proof.
  intros Hq Ht H. apply Forall_app. split; [|exact H].
  apply Forall_rev. eapply Forall_impl; [|exact Ht].
  intros c Hc G. rewrite (Hq c Hc) in G. discriminate G.
Qed.

Ltac acquire :=
  unfold acquired;
  repeat (apply Forall_cons;
          [cbn [kind passed isnull negb orb]; use_eqs; reflexivity|]);
  apply Forall_nil.

(** Every event of a run of [main] is gated. *)
Lemma main_gated w : always gated [] (events (main w)).
Proof.
  unfold main, destroy_and_exit, WaitAndExit.
  exec; unrun; subst; split_always.
  all: try solve [gate I].
  all: try solve [apply SetZeroRPM_gated; acquire].
  all: try solve [apply SetFan_gated, zero_rpm_events_acquired;
                  [apply SetZeroRPM_zero_rpm | acquire]].
  apply gated_skip with (q := is_fan_curve);
    [intros []; unfold guards; simpl; congruence | apply SetFan_fan_curve |].
  apply gated_skip with (q := is_zero_rpm);
    [intros []; unfold guards; simpl; congruence
    | apply SetZeroRPM_zero_rpm |].
  gate I.
Qed.

Ltac use_eqs_in F :=
  cbn [isnull negb orb] in F;
  repeat match goal with
         | H : ?x = _ |- _ =>
             lazymatch H with
             | F => fail
             | _ => idtac
             end;
             lazymatch type of F with
             | context [x] => rewrite H in F; cbn [isnull negb orb] in F
             end
         end.

(** ** Finding an event in a log *)

Lemma split_skip (q : Event -> bool) tr rest pre e post :
  Forall (fun x => q x = true) tr -> q e = false ->
  tr ++ rest = pre ++ e :: post ->
  exists pre', pre = tr ++ pre' /\ rest = pre' ++ e :: post.
Proof.
  intros Ht He. revert pre.
  induction Ht as [|x tr Hx _ IH]; intros pre E; simpl in E.
  - exists pre. auto.
  - destruct pre as [|y pre]; simpl in E; inversion E; subst.
    + congruence.
    + destruct (IH pre H1) as (pre' & -> & ->). exists pre'. auto.
Qed.

Lemma cons_eq_inv {A} (x y : A) (l l' : list A) :
  x :: l = y :: l' -> x = y /\ l = l'.
Proof. intros E. inversion E. auto. Qed.

(** [invert_split H], for [H : tr = pre ++ e :: post]: one goal for each
    place of [tr] at which [e] can stand.  A stretch of [tr] that is the
    log of [SetZeroRPM], of [SetFan] or of its loop is stepped over when
    [e] is evidently not one of its events; otherwise the search stops in
    front of it. *)

Ltac invert_skip H q e L :=
  let pre' := fresh "pre" in
  let Hq := fresh in
  assert (Hq : q e = false)
    by (reflexivity || (destruct e; simpl in *; congruence));
  apply (split_skip q) in H;
  [ destruct H as (pre' & -> & H); clear Hq
  | apply L
  | exact Hq ].

Ltac invert_step H :=
  lazymatch type of H with
  | [] = ?pre ++ _ :: _ => destruct pre; discriminate H
  | ?x :: _ = ?pre ++ ?e :: _ =>
      destruct pre as [|? pre]; cbn [app] in H;
      apply cons_eq_inv in H; destruct H as [? H];
      [ match goal with
        | Hh : x = e |- _ => inversion Hh; clear Hh
        end; subst; try clear H
      | subst ]
  | (_ ++ _) ++ _ = _ ++ _ :: _ => rewrite <- app_assoc in H
  | (_ :: _) ++ _ = _ ++ _ :: _ => cbn [app] in H
  | events (SetZeroRPM _ _ _) ++ _ = _ ++ ?e :: _ =>
      invert_skip H (@is_zero_rpm _) e SetZeroRPM_zero_rpm
  | events (SetFan _ _) ++ _ = _ ++ ?e :: _ =>
      invert_skip H (@is_fan_curve _) e SetFan_fan_curve
  | events (SetFan_loop _ _ _ _) ++ _ = _ ++ ?e :: _ =>
      invert_skip H (@is_element _) e SetFan_loop_element
  | events ?r = _ ++ _ :: _ =>
      rewrite <- (app_nil_r (events r)) in H
  end.

Ltac invert_split H := repeat (invert_step H).

(** ** Support check, exit code, teardown, first GPU, zero RPM *)

(** C7.  Support is checked before any mutation: a call that changes a
    setting comes after an [IsSupportedManualFanTuning] that succeeded and
    answered [true].  And when that query fails or answers [false], the
    run makes no call on the manual fan tuning of the GPU at all: what
    follows the query is [Terminate], the two lines of output and the
    pause, and [main] returns 0. *)
Theorem support_checked_before_mutation (w : World) :
  (forall pre e post,
      events (main w) = pre ++ e :: post ->
      is_mutation e = true ->
      exists svc gpu res,
        In (EvIsSupportedManualFanTuning svc gpu res true) pre /\
        ADLX_FAILED res = false) /\
  (forall svc gpu res supported pre post,
      events (main w) =
      pre ++ EvIsSupportedManualFanTuning svc gpu res supported :: post ->
      ADLX_FAILED res || Bool.eqb supported false = true ->
      Forall (fun e => is_tuning e = false) (events (main w)) /\
      (exists r msg,
          post = [EvTerminate r; EvCoutRes "Destroy ADLX res: " r;
                  EvCout msg; EvPause]) /\
      result (main w) = Some 0).
Proof.
  split.
  - unfold main, destroy_and_exit, WaitAndExit.
    exec; unrun; subst; intros pre e post E F; invert_split E;
      try discriminate F.
    all: destruct b; [|discriminate].
    all: do 3 eexists; split; [simpl; eauto 10 | assumption].
  - unfold main, destroy_and_exit, WaitAndExit.
    exec; unrun; subst; intros svc gpu res supported pre post E F;
      invert_split E.
    all: try solve [use_eqs_in F; discriminate F].
    all: repeat split; eauto; repeat constructor.
Qed.


(** C8.  Whatever the SDK answers, [main] returns 0: on success, when
    initialization fails and on every intermediate failure.  The only runs
    that return nothing are runs the program does not survive, and in each
    of them the SDK has broken one of its documented promises before. *)
Theorem main_exit_code (w : World) :
  result (main w) = Some 0 \/
  (result (main w) = None /\ forallb documented (events (main w)) = false).
Proof.
  unfold main, destroy_and_exit, WaitAndExit.
  exec; auto; right; (split; [reflexivity|]); unrun; subst.
  all: try (cbn [forallb documented isnull]; use_eqs; bool_false).
  - cbn [forallb]. rewrite forallb_app, SetFan_crash by assumption.
    bool_false.
  - rewrite SetZeroRPM_returns in *. discriminate.
Qed.

Lemma filter_none (q : Event -> bool) (q' : Event -> bool) tr :
  (forall e, q' e = true -> q e = false) ->
  Forall (fun e => q' e = true) tr -> filter q tr = [].
Proof.
  intros Hq H. induction H as [|e tr He _ IH]; simpl; auto.
  rewrite (Hq e He). exact IH.
Qed.

Lemma SetZeroRPM_no_terminate p enabled w :
  filter is_terminate (events (SetZeroRPM p enabled w)) = [].
Proof.
  apply filter_none with (q' := is_zero_rpm);
    [intros []; simpl; congruence | apply SetZeroRPM_zero_rpm].
Qed.

Lemma SetFan_no_terminate p w :
  filter is_terminate (events (SetFan p w)) = [].
Proof.
  apply filter_none with (q' := is_fan_curve);
    [intros []; simpl; congruence | apply SetFan_fan_curve].
Qed.

Lemma last_call_app (Q : list Event -> Prop) l1 l2 :
  (exists pre r post, l2 = pre ++ EvTerminate r :: post /\ Q post) ->
  exists pre r post, l1 ++ l2 = pre ++ EvTerminate r :: post /\ Q post.
Proof.
  intros (pre & r & post & E & H). exists (l1 ++ pre), r, post.
  rewrite E, app_assoc. auto.
Qed.

Lemma last_call_here (Q : list Event -> Prop) r post :
  Q post ->
  exists pre r' post', EvTerminate r :: post = pre ++ EvTerminate r' :: post' /\ Q post'.
Proof. intros H. exists [], r, post. auto. Qed.

Ltac last_call :=
  lazymatch goal with
  | |- exists pre r post, EvTerminate _ :: _ = _ /\ _ =>
      apply last_call_here; reflexivity
  | |- exists pre r post, ?e :: ?t = _ /\ _ =>
      apply last_call_app with (l1 := [e]) (l2 := t); last_call
  | |- exists pre r post, ?t1 ++ ?t2 = _ /\ _ =>
      apply last_call_app with (l1 := t1) (l2 := t2); last_call
  end.

(** A run in which the SDK keeps its documented promises returns. *)
Lemma documented_run_returns w :
  forallb documented (events (main w)) = true -> result (main w) = Some 0.
Proof.
  unfold main, destroy_and_exit, WaitAndExit.
  exec; auto; unrun; subst; intros D; exfalso; revert D.
  all: try solve [cbn [forallb documented isnull]; use_eqs;
                  cbn [negb orb andb]; rewrite ?andb_false_r; discriminate].
  - cbn [forallb]. rewrite forallb_app, SetFan_crash by assumption.
    cbn [negb orb andb]. rewrite ?andb_false_r. discriminate.
  - rewrite SetZeroRPM_returns in *. discriminate.
Qed.

Lemma returning_run w :
  forallb documented (events (main w)) = true \/
  (exists code, result (main w) = Some code) ->
  exists code, result (main w) = Some code.
Proof.
  intros [D|R]; [|exact R]. exists 0. apply documented_run_returns, D.
Qed.

(** C4.  Once [Initialize] has succeeded, ADLX is destroyed exactly once,
    whichever branch the run leaves through.  In every run in which the
    SDK keeps its documented promises, and in every other run that
    returns, [main] returns 0, [Terminate] is called exactly once, and it
    is the last call into the SDK: only console output and the pause
    follow. *)
Theorem terminate_once (w : World) (res : ADLX_RESULT) :
  hd_error (events (main w)) = Some (EvInitialize res) ->
  ADLX_SUCCEEDED res = true ->
  forallb documented (events (main w)) = true \/
  (exists code, result (main w) = Some code) ->
  result (main w) = Some 0 /\
  terminations (events (main w)) = 1%nat /\
  exists pre r post,
    events (main w) = pre ++ EvTerminate r :: post /\
    forallb is_runtime post = true.
Proof.
  intros E Hres D. apply returning_run in D. destruct D as [code R].
  revert R E Hres.
  unfold main, destroy_and_exit, WaitAndExit, terminations.
  exec; try discriminate; intros _ E Hres; inversion E; subst; try congruence.
  all: unrun; subst; split; [reflexivity|]; split; [|last_call].
  all: cbn [filter is_terminate List.length]; try reflexivity.
  rewrite !filter_app, SetZeroRPM_no_terminate, SetFan_no_terminate.
  reflexivity.
Qed.

Lemma on_interface_from_first_gpu mft ifc pre e :
  In (EvQueryInterface ifc (Some mft)) pre ->
  on_interface mft e -> from_first_gpu pre e.
Proof.
  intros Hin [K R].
  destruct e; simpl in *; try congruence; subst; eauto.
Qed.

Lemma SetFan_loop_receiver fuel l crt w :
  Forall (fun e => receiver e = None /\ kind e <> KAcquire)
         (events (SetFan_loop fuel l crt w)).
Proof.
  apply keeps_Forall.
  repeat keeps_step; repeat split; try reflexivity; discriminate.
Qed.

Ltac forall_events :=
  repeat first
    [ apply Forall_nil
    | apply Forall_cons; [split; [discriminate | reflexivity]|]
    | apply Forall_app; split ].

Lemma SetZeroRPM_on_interface mft enabled w :
  Forall (on_interface mft) (events (SetZeroRPM (Some mft) enabled w)).
Proof.
  unfold SetZeroRPM. exec; forall_events.
Qed.

Lemma SetFan_on_interface mft w :
  Forall (on_interface mft) (events (SetFan (Some mft) w)).
Proof.
  unfold SetFan. exec; unrun; subst; forall_events.
  all: eapply Forall_impl; [|apply SetFan_loop_receiver].
  all: intros e [R K]; split; [exact K | rewrite R; exact I].
Qed.

Lemma in_split_eq {A} (tr pre post : list A) (e : A) :
  tr = pre ++ e :: post -> In e tr.
Proof. intros ->. apply in_elt. Qed.

(** C5.  The program works on the first GPU: it reads the GPU list at
    index 0 and nowhere else, the GPU it hands to the tuning services is
    what that read returned, and all tuning is done on the interface
    fetched for that GPU.  When the read fails or returns a null handle,
    the run makes no call on a manual fan tuning interface: what follows
    is [Terminate], the two lines of output and the pause, and [main]
    returns 0. *)
Theorem first_gpu (w : World) :
  (forall pre e post,
      events (main w) = pre ++ e :: post -> from_first_gpu pre e) /\
  (forall gpus idx res out pre post,
      events (main w) = pre ++ EvGPUListAt gpus idx res out :: post ->
      ADLX_FAILED res || isnull out = true ->
      Forall (fun e => is_tuning e = false) (events (main w)) /\
      (exists r msg,
          post = [EvTerminate r; EvCoutRes "Destroy ADLX res: " r;
                  EvCout msg; EvPause]) /\
      result (main w) = Some 0).
Proof.
  split.
  - unfold main, destroy_and_exit, WaitAndExit.
    exec; unrun; subst; intros pre e post E; invert_split E.
    all: try solve [simpl; eauto 10].
    all: apply in_split_eq in E.
    all: apply on_interface_from_first_gpu with (mft := i3) (ifc := Some i2);
      [simpl; auto 10|].
    all: revert e E; apply Forall_forall.
    all: repeat (apply Forall_app; split);
      auto using SetZeroRPM_on_interface, SetFan_on_interface.
    all: forall_events.
  - unfold main, destroy_and_exit, WaitAndExit.
    exec; unrun; subst; intros gpus idx res out pre post E F; invert_split E.
    all: try solve [use_eqs_in F; discriminate F].
    all: repeat split; eauto; repeat constructor.
Qed.

Lemma SetFan_no_zero_rpm p w :
  Forall (fun e => is_zero_rpm e = false) (events (SetFan p w)).
Proof.
  eapply Forall_impl; [|apply SetFan_fan_curve].
  intros []; simpl; congruence.
Qed.

(** C6, as the code has it.  The zero-RPM toggle: when
    [IsSupportedZeroRPM] succeeds and answers [true], the program reads
    the zero-RPM state next and, if the value it reads is [true], sets the
    state to [false] at once; a state read as [false] is left as it is.
    That is all before the fan curve: no call of [SetFan] comes before
    the query, and no call on the zero-RPM setting comes after the read,
    or after the write that follows it. *)
Theorem zero_rpm_disabled_first (w : World) mft res pre post :
  events (main w) = pre ++ EvIsSupportedZeroRPM mft res true :: post ->
  ADLX_FAILED res = false ->
  Forall (fun e => is_fan_curve e = false) pre /\
  exists r cur rest,
    post = EvGetZeroRPMState mft r cur :: rest /\
    if cur
    then exists r' rest',
        rest = EvSetZeroRPMState mft false r' :: rest' /\
        Forall (fun e => is_zero_rpm e = false) rest'
    else Forall (fun e => is_zero_rpm e = false) rest.
Proof.
  unfold main, destroy_and_exit, WaitAndExit, SetZeroRPM.
  exec; unrun; subst; intros E F; invert_split E; try congruence.
  all: split; [repeat constructor|].
  all: do 3 eexists; split; [reflexivity|].
  all: match goal with
       | |- if ?b then _ else _ =>
           destruct b; cbn [Bool.eqb] in *; try discriminate
       end.
  all: try (do 2 eexists; split; [reflexivity|]).
  all: repeat (apply Forall_app; split);
    auto using SetFan_no_zero_rpm; repeat constructor.
Qed.

(** ** Writes *)

Ltac write_guarded :=
  cbn [guarded_write]; try exact I;
  repeat eexists; try reflexivity;
  try (apply Z.eqb_neq; assumption);
  try (let H := fresh in intros H; rewrite H in *; discriminate);
  try eassumption; try discriminate.

Lemma SetFan_body_guarded l crt :
  keeps guarded_write (fun _ => True) (SetFan_body l crt).
Proof.
  intros w hist _. split; [|exact I].
  unfold SetFan_body. exec; split_always; write_guarded.
Qed.

Lemma SetFan_loop_guarded fuel l crt :
  keeps guarded_write (fun _ => True) (SetFan_loop fuel l crt).
Proof.
  apply keeps_loop; [|apply SetFan_body_guarded].
  apply keeps_call. intros; simpl; auto.
Qed.

Lemma SetZeroRPM_guarded mft w hist :
  always guarded_write hist (events (SetZeroRPM (Some mft) false w)).
Proof.
  unfold SetZeroRPM. exec; split_always; write_guarded.
Qed.

Lemma SetFan_guarded mft w hist :
  always guarded_write hist (events (SetFan (Some mft) w)).
Proof.
  unfold SetFan. exec; unrun; subst; split_always; write_guarded.
  all: apply SetFan_loop_guarded; exact I.
Qed.

Lemma main_guarded w : always guarded_write [] (events (main w)).
Proof.
  unfold main, destroy_and_exit, WaitAndExit.
  exec; unrun; subst; split_always; write_guarded.
  all: auto using SetZeroRPM_guarded, SetFan_guarded.
Qed.

(** C9.  Every write is conditional on a read that showed a difference:
    [SetZeroRPMState], [SetFanSpeed] and [SetTemperature] are called only
    right after the read of the same setting of the same object, with the
    fixed target as the value and only when the value read differs from
    it.  A value that equals its target is left unwritten: the call that
    follows such a read writes no setting. *)
Theorem writes_only_on_difference (w : World) :
  (forall pre e post,
      events (main w) = pre ++ e :: post -> guarded_write (rev pre) e) /\
  (forall pre e e' post,
      events (main w) = pre ++ e :: e' :: post ->
      shows_target (rev pre) e -> is_setting_write e' = false).
Proof.
  pose proof (proj1 (always_split guarded_write _) (main_guarded w)) as G.
  split; [exact G|].
  intros pre e e' post E T.
  specialize (G (pre ++ [e]) e' post).
  rewrite <- app_assoc, rev_app_distr in G. specialize (G E).
  destruct e'; try reflexivity; exfalso; cbn in G.
  - destruct G as (r & cur & h & Eh & Hc & He).
    inversion Eh; subst. simpl in T. congruence.
  - destruct G as (r & cur & h & idx & Eh & Hc & Hs & Hn).
    inversion Eh; subst. destruct T as (idx' & Hs' & Hn'). congruence.
  - destruct G as (r & cur & h & idx & Eh & Hc & Hs & Hn).
    inversion Eh; subst. destruct T as (idx' & Hs' & Hn'). congruence.
Qed.

(** ** The list of states *)

Lemma SetZeroRPM_none (q : Event -> bool) p enabled w :
  (forall e, is_zero_rpm e = true -> q e = false) ->
  Forall (fun e => q e = false) (events (SetZeroRPM p enabled w)).
Proof.
  intros H. eapply Forall_impl; [|apply SetZeroRPM_zero_rpm]. exact H.
Qed.

Lemma SetFan_loop_none (q : Event -> bool) fuel l crt w :
  (forall e, is_element e = true -> q e = false) ->
  Forall (fun e => q e = false) (events (SetFan_loop fuel l crt w)).
Proof.
  intros H. eapply Forall_impl; [|apply SetFan_loop_element]. exact H.
Qed.

Ltac none_of :=
  repeat first
    [ apply Forall_nil
    | apply Forall_cons; [reflexivity|]
    | apply Forall_app; split
    | apply SetZeroRPM_none; intros []; simpl; congruence
    | apply SetFan_loop_none; intros []; simpl; congruence ].

Ltac find_in :=
  cbn [In app];
  first [ assumption
        | left; reflexivity
        | right; find_in
        | apply in_or_app; left; find_in
        | apply in_or_app; right; find_in ].

Lemma validated_here mft out r idx post :
  exists mid r' idx' post',
    EvIsValidFanTuningStates mft out r idx :: post =
    mid ++ EvIsValidFanTuningStates mft out r' idx' :: post' /\
    Forall (fun e => is_state_access e = true) mid.
Proof. exists [], r, idx, post. auto. Qed.

Lemma validated_later mft out t1 t2 :
  Forall (fun e => is_state_access e = true) t1 ->
  (exists mid r idx post',
      t2 = mid ++ EvIsValidFanTuningStates mft out r idx :: post' /\
      Forall (fun e => is_state_access e = true) mid) ->
  exists mid r idx post',
    t1 ++ t2 = mid ++ EvIsValidFanTuningStates mft out r idx :: post' /\
    Forall (fun e => is_state_access e = true) mid.
Proof.
  intros H1 (mid & r & idx & post' & -> & H2).
  exists (t1 ++ mid), r, idx, post'. rewrite app_assoc. split; auto.
  apply Forall_app; auto.
Qed.

Lemma SetFan_loop_access fuel l crt w :
  Forall (fun e => is_state_access e = true)
         (events (SetFan_loop fuel l crt w)).
Proof.
  eapply Forall_impl; [|apply SetFan_loop_element].
  intros []; simpl; congruence.
Qed.

Ltac validated :=
  rewrite <- ?app_assoc; cbn [app];
  lazymatch goal with
  | |- exists mid r idx post',
        EvIsValidFanTuningStates _ _ _ _ :: _ = _ /\ _ =>
      apply validated_here
  | |- exists mid r idx post', ?e :: ?t = _ /\ _ =>
      apply validated_later with (t1 := [e]) (t2 := t);
      [repeat constructor | validated]
  | |- exists mid r idx post', ?a ++ ?b = _ /\ _ =>
      apply validated_later with (t1 := a) (t2 := b);
      [apply SetFan_loop_access | validated]
  end.

Ltac commit_validated :=
  cbn [validated_commit]; try exact I;
  repeat eexists; try reflexivity; try eassumption.

Lemma no_commit_validated hist tr :
  Forall (fun e => is_commit e = false) tr -> always validated_commit hist tr.
Proof.
  intros H. revert hist.
  induction H as [|e tr He _ IH]; intros hist; simpl; auto.
  split; [|apply IH]. destruct e; try exact I. discriminate He.
Qed.

Lemma main_commit w : always validated_commit [] (events (main w)).
Proof.
  unfold main, destroy_and_exit, WaitAndExit, SetFan.
  exec; unrun; subst; split_always; commit_validated.
  all: apply no_commit_validated; none_of.
Qed.

Ltac size_is_5 :=
  match goal with
  | H : Nat.eqb _ 5 = true |- _ => apply Nat.eqb_eq in H; subst
  end.

(** C10.  The program writes to a fan-tuning state only when the list it
    fetched has exactly five states: a [SetFanSpeed] or [SetTemperature]
    comes after a [Size] that returned 5; and after a [Size] that
    returned anything else the run makes no call on a position or an
    element of the list, and goes straight on to the validation of that
    list.  In every case the list is validated, modified or not: in
    every run in which the SDK keeps its documented promises, and in
    every other run that returns, [GetFanTuningStates] is followed, after
    the calls on the list and its states, by [IsValidFanTuningStates] on
    the pointer it left.  And [SetFanTuningStates] is called, on that
    same list, exactly when [IsValidFanTuningStates] succeeds: right
    after a validation that succeeded, and never otherwise. *)
Theorem five_states_or_untouched (w : World) :
  (forall pre e post,
      events (main w) = pre ++ e :: post ->
      is_state_write e = true ->
      exists l, In (EvSize l 5) pre) /\
  (forall l n pre post,
      events (main w) = pre ++ EvSize l n :: post ->
      n <> 5%nat ->
      Forall (fun e => is_element e = false) (events (main w)) /\
      exists mft r idx post',
        post = EvIsValidFanTuningStates mft (Some l) r idx :: post') /\
  (forall mft res out pre post,
      events (main w) = pre ++ EvGetFanTuningStates mft res out :: post ->
      forallb documented (events (main w)) = true \/
      (exists code, result (main w) = Some code) ->
      exists mid r idx post',
        post = mid ++ EvIsValidFanTuningStates mft out r idx :: post' /\
        Forall (fun e => is_state_access e = true) mid) /\
  (forall mft states res idx pre post,
      events (main w) =
      pre ++ EvIsValidFanTuningStates mft states res idx :: post ->
      if ADLX_SUCCEEDED res
      then exists r post', post = EvSetFanTuningStates mft states r :: post'
      else Forall (fun e => is_commit e = false) (events (main w))) /\
  (forall mft states r pre post,
      events (main w) = pre ++ EvSetFanTuningStates mft states r :: post ->
      exists res idx pre',
        pre = pre' ++ [EvIsValidFanTuningStates mft states res idx] /\
        ADLX_SUCCEEDED res = true).
Proof.
  split; [|split; [|split; [|split]]].
  - unfold main, destroy_and_exit, WaitAndExit, SetFan.
    exec; unrun; subst; intros pre e post E F; invert_split E;
      try discriminate F.
    all: size_is_5; eexists; find_in.
  - intros l n pre post. unfold main, destroy_and_exit, WaitAndExit, SetFan.
    exec; unrun; subst; intros E F; invert_split E.
    all: try solve [size_is_5; congruence].
    all: split; [none_of | do 4 eexists; reflexivity].
  - intros mft res out pre post E D.
    apply returning_run in D. destruct D as [code F]. revert E F.
    unfold main, destroy_and_exit, WaitAndExit, SetFan.
    exec; unrun; subst; intros E F; invert_split E; try discriminate F.
    all: validated.
  - intros mft states res idx pre post.
    unfold main, destroy_and_exit, WaitAndExit, SetFan.
    exec; unrun; subst; intros E; invert_split E; try congruence.
    all: try solve [do 2 eexists; reflexivity].
    all: none_of.
  - intros mft states r pre post E.
    destruct (proj1 (always_split _ _) (main_commit w) pre _ post E)
      as (res & idx & h & Eh & Hs).
    exists res, idx, (rev h). split; [|exact Hs].
    rewrite <- (rev_involutive pre), Eh. reflexivity.
Qed.

(** ** The order of the calls *)

Lemma SetZeroRPM_stage p enabled w :
  Forall (fun e => stage e = 7%nat) (events (SetZeroRPM p enabled w)).
Proof.
  eapply Forall_impl; [|apply SetZeroRPM_zero_rpm].
  intros []; simpl; congruence.
Qed.

Lemma SetFan_loop_stage fuel l crt w :
  Forall (fun e => stage e = 8%nat) (events (SetFan_loop fuel l crt w)).
Proof.
  eapply Forall_impl; [|apply SetFan_loop_element].
  intros []; simpl; congruence.
Qed.

(** A stretch of calls of one stage, after calls of no later stage. *)
Lemma one_stage_in_order k tr hist :
  Forall (fun e => stage e = k) tr ->
  Forall (fun c => (stage c <= k)%nat) hist ->
  always in_order hist tr.
Proof.
  intros H. revert hist.
  induction H as [|e tr He _ IH]; intros hist Hh; simpl; auto.
  split.
  - unfold in_order. rewrite He. exact Hh.
  - apply IH. constructor; [lia | exact Hh].
Qed.

Ltac stage_le :=
  repeat first
    [ apply Forall_nil
    | apply Forall_cons; [simpl; lia|]
    | apply Forall_app; split
    | apply Forall_rev
    | eapply Forall_impl; [|apply SetZeroRPM_stage];
      cbv beta; intros ? ->; simpl; lia
    | eapply Forall_impl; [|apply SetFan_loop_stage];
      cbv beta; intros ? ->; simpl; lia ].

Lemma main_in_order w : always in_order [] (events (main w)).
Proof.
  unfold main, destroy_and_exit, WaitAndExit, SetFan.
  exec; unrun; subst; split_always.
  all: try solve [unfold in_order; stage_le].
  all: try solve [apply one_stage_in_order with (k := 7%nat);
                  [apply SetZeroRPM_stage | stage_le]].
  all: try solve [apply one_stage_in_order with (k := 8%nat);
                  [apply SetFan_loop_stage | stage_le]].
Qed.

Lemma split_twice {A} (tr pre mid post : list A) (c e : A) :
  tr = pre ++ c :: mid ++ e :: post ->
  tr = (pre ++ c :: mid) ++ e :: post /\ In c (rev (pre ++ c :: mid)).
Proof.
  intros ->. split.
  - rewrite <- app_assoc. reflexivity.
  - apply in_rev. rewrite rev_involutive. apply in_elt.
Qed.

(** C3, as the code has it.  The program tests the answer of
    [Initialize], of the six steps that lead to the manual fan tuning
    interface, of [IsSupportedZeroRPM], of [GetFanTuningStates] and
    [Size], and of [IsValidFanTuningStates]; and a test that fails keeps
    every call it guards from being made: after it, the log has none of
    them. *)
Theorem failed_test_skips_what_it_guards (w : World) pre c mid e post :
  events (main w) = pre ++ c :: mid ++ e :: post ->
  passed c = false ->
  guards c e = false.
Proof.
  intros E F. apply split_twice in E. destruct E as [E Hin].
  pose proof (proj1 (always_split gated _) (main_gated w) _ _ _ E) as G.
  unfold gated in G. rewrite Forall_forall in G. specialize (G c Hin).
  destruct (guards c e); [|reflexivity].
  rewrite G in F by reflexivity. discriminate F.
Qed.

(** C2, as the code has it.  The calls of a run come in the order of
    [stage]: [Initialize], [GetGPUTuningServices], [GetGPUs], [At(0)],
    [IsSupportedManualFanTuning], [GetManualFanTuning], the conversion of
    the interface, the zero-RPM calls, the calls on the list of states,
    the validation, the commit, [Terminate], console output.  A call
    other than [Terminate] is made only when every test of [main] before
    it has passed; [Terminate] itself needs [Initialize] only. *)
Theorem calls_in_order_behind_tests (w : World) pre e post :
  events (main w) = pre ++ e :: post ->
  Forall (fun c => (stage c <= stage e)%nat) pre /\
  (is_step_call e = true ->
   Forall (fun c => is_main_test c = true -> passed c = true) pre) /\
  (is_terminate e = true ->
   Forall (fun c => kind c = KInitialize -> passed c = true) pre).
Proof.
  intros E.
  pose proof (proj1 (always_split in_order _) (main_in_order w) _ _ _ E) as O.
  pose proof (proj1 (always_split gated _) (main_gated w) _ _ _ E) as G.
  apply Forall_rev in O, G. rewrite rev_involutive in O, G.
  repeat split; [exact O | intros R ..].
  all: eapply Forall_impl; [|exact G]; cbv beta.
  all: intros c Hc; unfold guards, is_main_test, is_step_call in *.
  all: destruct e; try discriminate R; simpl in *.
  all: destruct (kind c); intros; try discriminate; auto.
Qed.

(** ** The fan curve *)

Lemma conj_last (A B C : Prop) : B -> C -> A -> A /\ B /\ C.
Proof. auto. Qed.

Ltac brought :=
  unfold brings_to; do 2 eexists;
  first [ left; split; [apply Z.eqb_eq; eassumption | reflexivity]
        | right; split; [apply Z.eqb_neq; eassumption
                        | do 3 eexists; reflexivity] ].

Lemma SetFan_body_visits l crt w :
  (crt < 5)%nat ->
  forallb documented (events (SetFan_body l crt w)) = true ->
  result (SetFan_body l crt w) = Some tt /\
  visits l crt (events (SetFan_body l crt w)).
Proof.
  intros Hc. unfold SetFan_body.
  destruct crt as [|[|[|[|[|crt]]]]]; try lia.
  all: exec; try discriminate; intros _; (split; [reflexivity|]).
  all: unfold visits; do 6 eexists.
  all: split; [reflexivity|]; split; [reflexivity|].
  all: apply conj_last; [brought | brought | reflexivity].
Qed.

Lemma SetFan_loop_visits fuel l crt w :
  (crt <= 5)%nat -> (5 - crt <= fuel)%nat ->
  forallb documented (events (SetFan_loop fuel l crt w)) = true ->
  result (SetFan_loop fuel l crt w) = Some tt /\
  exists logs,
    events (SetFan_loop fuel l crt w) = loop_log l logs /\
    Forall2 (visits l) (seq crt (5 - crt)) logs.
Proof.
  revert crt w.
  induction fuel as [|fuel IH]; intros crt w Hc Hf; cbn [SetFan_loop];
    rewrite result_bind, events_bind, !call_eq; cbn [result events final];
    set (e := fst (StateList_End l w)); set (w1 := snd (StateList_End l w));
    cbn [app forallb documented]; intros D;
    apply andb_prop in D; destruct D as [E5 D];
    apply Nat.eqb_eq in E5; rewrite E5 in *; clear E5;
    destruct (Nat.eqb_spec crt 5) as [E|E].
  1, 3: subst crt; cbn [ret result events]; split; [reflexivity|];
    exists []; split; [reflexivity | constructor].
  - lia.
  - revert D. rewrite result_bind, events_bind, forallb_app. intros D.
    apply andb_prop in D. destruct D as [Db Dl].
    destruct (@SetFan_body_visits l crt w1) as [Rb Vb]; [lia | exact Db |].
    rewrite Rb in *.
    destruct (IH (S crt) (final (SetFan_body l crt w1))) as (Rl & logs & El & Vl);
      [lia | lia | exact Dl |].
    split; [exact Rl|].
    exists (events (SetFan_body l crt w1) :: logs). split.
    + rewrite El. unfold loop_log. cbn [flat_map app].
      rewrite <- app_assoc. reflexivity.
    + replace (5 - crt)%nat with (S (5 - S crt)) by lia.
      cbn [seq]. constructor; assumption.
Qed.

(** C1, as the code has it.  In a run that gets as far as a list of
    exactly five states, and in which the list behaves as documented, the
    program visits the states 0 to 4 in order, brings the speed and the
    temperature of each to the fixed pair for its position, then has the
    list validated and commits it exactly when the validation succeeds;
    [Terminate] follows and [main] returns 0. *)
Theorem fixed_curve_applied (w : World) l pre post :
  events (main w) = pre ++ EvSize l 5 :: post ->
  forallb documented (events (main w)) = true ->
  result (main w) = Some 0 /\
  exists mft logs res idx rest,
    post =
    EvBegin l 0 :: loop_log l logs ++
    EvIsValidFanTuningStates mft (Some l) res idx :: rest /\
    Forall2 (visits l) (seq 0 5) logs /\
    ((ADLX_SUCCEEDED res = true /\
      exists res' res'',
        rest = [EvSetFanTuningStates mft (Some l) res'; EvTerminate res'']) \/
     (ADLX_SUCCEEDED res = false /\
      exists res', rest = [EvTerminate res'])).
Proof.
  unfold main, destroy_and_exit, WaitAndExit, SetFan.
  exec; unrun; subst; intros E D; invert_split E.
  all: try match goal with
           | H : Nat.eqb 5 5 = false |- _ => discriminate H
           end.
  all: rewrite forallb_forall in D.
  all: match goal with
       | |- context [EvBegin ?l' ?n] =>
           assert (B : n = 0%nat)
             by (apply Nat.eqb_eq, (D (EvBegin l' n)); find_in);
           rewrite B in *; clear B
       end.
  all: match goal with
       | |- context [events (SetFan_loop 6 ?l' 0 ?w')] =>
           destruct (@SetFan_loop_visits 6 l' 0 w')
             as (Rl & logs & El & Vl);
           [ lia | lia
           | apply forallb_forall; intros x Hx; apply D; find_in | ]
       end.
  all: try congruence.
  all: split; [reflexivity|].
  all: rewrite El; rewrite <- ?app_assoc; cbn [app].
  all: do 5 eexists; split; [reflexivity|]; split; [exact Vl|].
  all: eauto 8.
Qed.

(** ** What the run prints *)

(** X1.  A test of [main] that fails is reported, and ends the run: the
    message printed is that of the step whose test failed.  After a
    failed [Initialize] the message and the pause are all that follows;
    after a later failure ADLX is destroyed first and the result of
    [Terminate] is printed.  In each case [main] returns 0. *)
Theorem failure_is_reported (w : World) pre c post :
  events (main w) = pre ++ c :: post ->
  is_main_test c = true ->
  passed c = false ->
  exists msg,
    failure_message c = Some msg /\
    farewell c msg post /\
    result (main w) = Some 0.
Proof.
  unfold main, destroy_and_exit, WaitAndExit.
  exec; unrun; subst; intros E T F; unfold is_main_test in T;
    invert_split E.
  all: try discriminate T.
  all: try solve [cbn [passed] in F; use_eqs_in F; congruence].
  all: try solve [eexists; split; [reflexivity|]; split; [|reflexivity];
                  cbn [farewell]; eauto].
Qed.

Lemma SetFan_none (q : Event -> bool) p w :
  (forall e, is_fan_curve e = true -> q e = false) ->
  Forall (fun e => q e = false) (events (SetFan p w)).
Proof.
  intros H. eapply Forall_impl; [|apply SetFan_fan_curve]. exact H.
Qed.

Ltac quiet :=
  repeat first
    [ apply Forall_nil
    | apply Forall_cons; [reflexivity|]
    | apply Forall_app; split
    | apply SetZeroRPM_none; intros []; simpl; congruence
    | apply SetFan_none; intros []; simpl; congruence ].

(** X2.  Nothing is printed and the program does not pause unless a test
    of [main] has failed: a line of output, and the pause, come after such
    a test.  A run that gets to the tuning prints nothing and does not
    pause, whatever the SDK answers there: zero RPM that is not
    supported, a list that cannot be fetched, a size other than 5 and a
    curve that is rejected all pass in silence. *)
Theorem output_only_on_failure (w : World) :
  (forall pre e post,
      events (main w) = pre ++ e :: post ->
      is_runtime e = true ->
      exists c, In c pre /\ is_main_test c = true /\ passed c = false) /\
  (forall pre e post,
      events (main w) = pre ++ e :: post ->
      is_tuning e = true ->
      Forall (fun x => is_runtime x = false) (events (main w))).
Proof.
  split.
  - unfold main, destroy_and_exit, WaitAndExit.
    exec; unrun; subst; intros pre e post E R; invert_split E;
      try discriminate R.
    all: apply Exists_exists.
    all: repeat first
           [ apply Exists_cons_hd;
             split; [reflexivity|];
             cbn [passed isnull negb orb]; use_eqs; reflexivity
           | apply Exists_cons_tl ].
  - unfold main, destroy_and_exit, WaitAndExit.
    exec; unrun; subst; intros pre e post E T; unfold is_tuning in T.
    all: try solve [invert_split E; discriminate T].
    all: quiet.
Qed.

(** ** Calls made once *)

Lemma SetFan_loop_loop_calls fuel l crt w :
  Forall (fun e => is_loop_call e = true) (events (SetFan_loop fuel l crt w)).
Proof.
  apply keeps_Forall. repeat keeps_step; auto.
Qed.

Lemma loop_calls_not_repeated hist tr :
  Forall (fun e => is_loop_call e = true) tr -> always not_repeated hist tr.
Proof.
  intros H. revert hist.
  induction H as [|e tr He _ IH]; intros hist; simpl; auto.
  split; [|apply IH]. unfold not_repeated. congruence.
Qed.

Ltac first_time :=
  unfold not_repeated; intros _;
  repeat first
    [ apply Forall_nil
    | apply Forall_cons; [reflexivity|]
    | apply Forall_app; split
    | apply Forall_rev
    | eapply Forall_impl; [|apply SetFan_loop_loop_calls];
      intros []; simpl; congruence ].

Lemma main_not_repeated w : always not_repeated [] (events (main w)).
Proof.
  unfold main, destroy_and_exit, WaitAndExit, SetFan, SetZeroRPM.
  exec; unrun; subst; split_always.
  all: try solve [first_time].
  all: try solve [apply loop_calls_not_repeated, SetFan_loop_loop_calls].
Qed.


(** ** The positions the loop visits *)

Lemma SetFan_body_shape l crt w :
  exists res out rest,
    events (SetFan_body l crt w) = EvStateAt l crt res out :: rest /\
    Forall (fun e => is_state_read e || is_state_write e = true) rest.
Proof.
  unfold SetFan_body. exec.
  all: do 3 eexists; split; [reflexivity | repeat constructor].
Qed.

Lemma next_position_skip tr hist :
  Forall (fun e => is_state_read e || is_state_write e = true) tr ->
  next_position (rev tr ++ hist) = next_position hist.
Proof.
  intros H. revert hist.
  induction H as [|e tr He _ IH]; intros hist; [reflexivity|].
  cbn [rev]. rewrite <- app_assoc, IH. cbn [app].
  destruct e; try discriminate He; reflexivity.
Qed.

Lemma state_calls_in_sequence hist tr :
  Forall (fun e => is_state_read e || is_state_write e = true) tr ->
  always in_sequence hist tr.
Proof.
  intros H. revert hist.
  induction H as [|e tr He _ IH]; intros hist; simpl; auto.
  split; [|apply IH]. destruct e; try exact I. discriminate He.
Qed.

Lemma SetFan_loop_in_sequence fuel l crt w hist :
  next_position hist = Some crt ->
  always in_sequence hist (events (SetFan_loop fuel l crt w)).
Proof.
  revert crt w hist.
  induction fuel as [|fuel IH]; intros crt w hist Hp; cbn [SetFan_loop];
    rewrite events_bind, !call_eq; cbn [result events final app always];
    set (e := fst (StateList_End l w)); set (w1 := snd (StateList_End l w));
    (split; [exact I|]);
    destruct (Nat.eqb_spec crt e) as [E|E]; try exact I.
  rewrite events_bind.
  destruct (SetFan_body_shape l crt w1) as (res & out & rest & Eb & Hr).
  rewrite Eb. cbn [app always]. split.
  - exists e, hist. auto.
  - apply always_app. split; [apply state_calls_in_sequence, Hr|].
    destruct (result (SetFan_body l crt w1)); [|exact I].
    apply IH. rewrite next_position_skip by exact Hr. reflexivity.
Qed.

Lemma main_in_sequence w : always in_sequence [] (events (main w)).
Proof.
  unfold main, destroy_and_exit, WaitAndExit, SetFan, SetZeroRPM.
  exec; unrun; subst; split_always; try exact I.
  all: apply SetFan_loop_in_sequence; reflexivity.
Qed.

Lemma SetFan_loop_in_range fuel l crt w :
  (crt <= 5)%nat ->
  forallb five_positions (events (SetFan_loop fuel l crt w)) = true ->
  Forall (fun e => forall i, position e = Some i -> (i < 5)%nat)
         (events (SetFan_loop fuel l crt w)).
Proof.
  revert crt w.
  induction fuel as [|fuel IH]; intros crt w Hc; cbn [SetFan_loop];
    rewrite events_bind, !call_eq; cbn [result events final app];
    set (e := fst (StateList_End l w)); set (w1 := snd (StateList_End l w));
    cbn [forallb five_positions]; intros D;
    apply andb_prop in D; destruct D as [E5 D];
    apply Nat.eqb_eq in E5; rewrite E5 in *; clear E5;
    (apply Forall_cons; [intros i Hi; discriminate Hi|]);
    destruct (Nat.eqb_spec crt 5) as [E|E]; try apply Forall_nil.
  revert D. rewrite events_bind, forallb_app. intros D.
  apply andb_prop in D. destruct D as [_ Dl].
  destruct (SetFan_body_shape l crt w1) as (res & out & rest & Eb & Hr).
  rewrite Eb. cbn [app]. apply Forall_cons; [|apply Forall_app; split].
  - intros i Hi. inversion Hi. subst. lia.
  - eapply Forall_impl; [|exact Hr].
    intros [] Hx i Hi; try discriminate Hi; discriminate Hx.
  - destruct (result (SetFan_body l crt w1)); [|apply Forall_nil].
    apply IH; [lia | exact Dl].
Qed.

Ltac in_range :=
  repeat first
    [ apply Forall_nil
    | apply Forall_cons; [intros ? Hi; discriminate Hi|]
    | apply Forall_app; split ].

Lemma main_in_range w :
  forallb five_positions (events (main w)) = true ->
  Forall (fun e => forall i, position e = Some i -> (i < 5)%nat)
         (events (main w)).
Proof.
  unfold main, destroy_and_exit, WaitAndExit, SetFan, SetZeroRPM.
  exec; unrun; subst; intros D; in_range.
  all: rewrite forallb_forall in D.
  all: match goal with
       | |- context [events (SetFan_loop 6 ?l' ?n ?w')] =>
           apply SetFan_loop_in_range;
           [ apply Nat.leb_le, (D (EvBegin l' n)); find_in
           | apply forallb_forall; intros x Hx; apply D; find_in ]
       end.
Qed.

(** X4.  The loop walks the list from [Begin()] in steps of one: an
    [At(idx)] comes right after an [End()] of the same list that answered
    something other than [idx], and [idx] is what [Begin()] answered for
    the first visit, and one more than the position of the visit before
    for every other.  When [Begin()] answers 5 or less and every [End()]
    answers 5, every position visited is below 5: inside the two
    arrays. *)
Theorem loop_walks_the_list (w : World) pre l idx res out post :
  events (main w) = pre ++ EvStateAt l idx res out :: post ->
  (exists n pre',
      pre = pre' ++ [EvEnd l n] /\ n <> idx /\
      next_position (rev pre') = Some idx) /\
  (forallb five_positions (events (main w)) = true -> (idx < 5)%nat).
Proof.
  intros E. split.
  - destruct (proj1 (always_split in_sequence _) (main_in_sequence w) _ _ _ E)
      as (n & hist & Eh & Hn & Hp).
    exists n, (rev hist). rewrite rev_involutive.
    split; [|split; assumption].
    rewrite <- (rev_involutive pre), Eh. reflexivity.
  - intros D. pose proof (main_in_range w D) as H.
    rewrite Forall_forall in H.
    apply (H (EvStateAt l idx res out)); [|reflexivity].
    rewrite E. apply in_elt.
Qed.

(** ** Handles *)

Lemma fetched_cons l e hist : fetched l hist -> fetched l (e :: hist).
Proof. intros (mft & res & H). exists mft, res. right. exact H. Qed.

Ltac handed :=
  cbn [handed_out current_state]; try exact I;
  first [ assumption | eexists; reflexivity | eauto using fetched_cons ].

Lemma SetFan_body_handed l crt :
  keeps handed_out (fetched l) (SetFan_body l crt).
Proof.
  intros w hist H. split.
  - unfold SetFan_body. exec; split_always; handed.
  - destruct H as (mft & res & H). exists mft, res.
    apply in_or_app. right. exact H.
Qed.

Lemma SetFan_loop_handed fuel l crt :
  keeps handed_out (fetched l) (SetFan_loop fuel l crt).
Proof.
  apply keeps_loop; [|apply SetFan_body_handed].
  apply keeps_call. intros r hist H. split; [exact H | apply fetched_cons, H].
Qed.

Lemma main_handed_out w : always handed_out [] (events (main w)).
Proof.
  unfold main, destroy_and_exit, WaitAndExit, SetFan, SetZeroRPM.
  exec; unrun; subst; split_always; try exact I.
  all: try solve [cbn [handed_out]; repeat split; repeat eexists; find_in].
  all: apply SetFan_loop_handed; unfold fetched; do 2 eexists; find_in.
Qed.

(** X5.  Apart from the global [g_ADLXHelp], every object of a call, the
    receiver as well as a handle passed as an argument, is one the SDK
    has handed out earlier in the run.  [At] is called on the GPU list
    [GetGPUs] returned.  The support query and [GetManualFanTuning] go to
    the tuning services [GetGPUTuningServices] returned, with the GPU
    that [At] returned.  The interface converted is the one
    [GetManualFanTuning] returned, and every call on a manual fan tuning
    interface is on the result of that conversion.  [Size], [Begin],
    [End] and [At] go to the list [GetFanTuningStates] returned; the
    validation and the commit are given the pointer that call left,
    through the same interface.  And a speed or temperature is read and
    written on the state the latest [At] returned. *)
Theorem objects_were_handed_out (w : World) pre e post :
  events (main w) = pre ++ e :: post -> handed_out (rev pre) e.
Proof.
  apply (proj1 (always_split handed_out _) (main_handed_out w)).
Qed.

(** ** From the zero-RPM toggle to the fan curve *)

(** X6.  The zero-RPM toggle never keeps the fan curve from being set:
    whatever [IsSupportedZeroRPM] answers, at most two more calls on the
    zero-RPM state follow, and then the list of states is fetched through
    the same interface. *)
Theorem fan_curve_follows_zero_rpm (w : World) mft res supported pre post :
  events (main w) = pre ++ EvIsSupportedZeroRPM mft res supported :: post ->
  exists zero r out rest,
    post = zero ++ EvGetFanTuningStates mft r out :: rest /\
    Forall (fun e => is_zero_rpm e = true) zero /\
    (List.length zero <= 2)%nat.
Proof.
  unfold main, destroy_and_exit, WaitAndExit, SetFan, SetZeroRPM.
  exec; unrun; subst; intros E; invert_split E.
  all: first
         [ solve [exists []; do 3 eexists;
                  split; [reflexivity|]; split; [repeat constructor|];
                  simpl; lia]
         | solve [eexists [_]; do 3 eexists;
                  split; [reflexivity|]; split; [repeat constructor|];
                  simpl; lia]
         | solve [eexists [_; _]; do 3 eexists;
                  split; [reflexivity|]; split; [repeat constructor|];
                  simpl; lia] ].
Qed.

(** X7.  A list that could not be fetched is validated all the same: when
    [GetFanTuningStates] fails, the next call is [IsValidFanTuningStates]
    on the pointer the failed call left, and that pointer is committed if
    the validation succeeds.  [Terminate] follows and [main] returns 0. *)
Theorem failed_fetch_still_validated (w : World) mft res out pre post :
  events (main w) = pre ++ EvGetFanTuningStates mft res out :: post ->
  ADLX_SUCCEEDED res = false ->
  result (main w) = Some 0 /\
  exists r idx rest,
    post = EvIsValidFanTuningStates mft out r idx :: rest /\
    if ADLX_SUCCEEDED r
    then exists r' r'',
        rest = [EvSetFanTuningStates mft out r'; EvTerminate r'']
    else exists r'', rest = [EvTerminate r''].
Proof.
  unfold main, destroy_and_exit, WaitAndExit, SetFan, SetZeroRPM.
  exec; unrun; subst; intros E F; invert_split E; try congruence.
  all: split; [reflexivity|].
  all: do 3 eexists; split; [reflexivity|].
  all: use_eqs; eauto.
Qed.

(** ** [SetZeroRPM] with either target *)

(** X8.  [SetZeroRPM] with either target, on an interface that is not
    null: it returns; it writes the zero-RPM state at most once, as its
    last call, and the value written is the target, after a supported
    query that did not fail and a read that showed the other value; and a
    read that shows the target is its last call. *)
Theorem SetZeroRPM_either_target (w : World) mft enabled :
  result (SetZeroRPM (Some mft) enabled w) = Some tt /\
  (forall pre e post,
      events (SetZeroRPM (Some mft) enabled w) = pre ++ e :: post ->
      is_setting_write e = true ->
      post = [] /\
      exists res r r',
        pre = [EvIsSupportedZeroRPM mft res true;
               EvGetZeroRPMState mft r (negb enabled)] /\
        e = EvSetZeroRPMState mft enabled r' /\
        ADLX_FAILED res = false) /\
  (forall pre r post,
      events (SetZeroRPM (Some mft) enabled w) =
      pre ++ EvGetZeroRPMState mft r enabled :: post ->
      post = []).
Proof.
  split; [apply SetZeroRPM_returns|].
  unfold SetZeroRPM. split.
  - exec; intros pre e post E S; invert_split E; try discriminate S.
    match goal with
    | H : Bool.eqb ?b enabled = false |- _ =>
        assert (Hb : b = negb enabled)
          by (destruct b, enabled; try reflexivity; discriminate H);
        rewrite Hb in *
    end.
    split; [reflexivity|]. do 3 eexists.
    split; [reflexivity|]. split; [reflexivity | assumption].
  - exec; intros pre r post E; invert_split E; try reflexivity.
    destruct enabled; discriminate.
Qed.

(** ** Pointers used without a test *)

Lemma split_app {A} (t1 t2 pre post : list A) (e : A) :
  t1 ++ t2 = pre ++ e :: post ->
  (exists post1, t1 = pre ++ e :: post1 /\ post = post1 ++ t2) \/
  (exists pre2, pre = t1 ++ pre2 /\ t2 = pre2 ++ e :: post).
Proof.
  revert pre. induction t1 as [|x t1 IH]; intros pre E; simpl in E.
  - right. exists pre. auto.
  - destruct pre as [|y pre]; simpl in E; inversion E; subst.
    + left. exists t1. auto.
    + destruct (IH pre H1) as [(p1 & -> & ->)|(p2 & -> & ->)].
      * left. exists p1. auto.
      * right. exists p2. auto.
Qed.

Lemma SetFan_body_null l crt w pre l' idx res post :
  events (SetFan_body l crt w) = pre ++ EvStateAt l' idx res None :: post ->
  post = [] /\ result (SetFan_body l crt w) = None.
Proof.
  unfold SetFan_body. exec; intros E; invert_split E; auto.
Qed.

Lemma SetFan_loop_null fuel l crt w pre l' idx res post :
  events (SetFan_loop fuel l crt w) =
  pre ++ EvStateAt l' idx res None :: post ->
  post = [] /\ result (SetFan_loop fuel l crt w) = None.
Proof.
  revert crt w pre.
  induction fuel as [|fuel IH]; intros crt w pre; cbn [SetFan_loop];
    rewrite result_bind, events_bind, !call_eq; cbn [result events final app];
    set (e := fst (StateList_End l w)); set (w1 := snd (StateList_End l w));
    destruct (Nat.eqb_spec crt e) as [E|E]; cbn [ret crash result events];
    intros H; destruct pre as [|x pre]; try discriminate H;
    cbn [app] in H; apply cons_eq_inv in H; destruct H as [_ H];
    try (destruct pre; discriminate H).
  revert H. rewrite result_bind, events_bind. intros H.
  apply split_app in H. destruct H as [(p1 & Hb & ->)|(p2 & -> & Hl)].
  - apply SetFan_body_null in Hb. destruct Hb as [-> Hb].
    rewrite Hb. auto.
  - destruct (result (SetFan_body l crt w1)) as [[]|].
    + apply IH in Hl. exact Hl.
    + destruct p2; discriminate Hl.
Qed.

(** X9.  Three out-pointers are used without a null check: the GPU list
    (line 59), the list of states (line 159) and the state (line 168).
    When the SDK leaves one of them null, with a result that passes the
    test if there is one, the run ends on the spot: that call is the last
    event, [Terminate] is not called and [main] does not return. *)
Theorem null_pointer_stops_the_run (w : World) pre e post :
  events (main w) = pre ++ e :: post ->
  left_null e = true ->
  post = [] /\ result (main w) = None.
Proof.
  intros E N. destruct e; try discriminate N; revert E N.
  - unfold main, destroy_and_exit, WaitAndExit.
    exec; unrun; subst; intros E N; invert_split E; auto.
    all: cbn [left_null isnull] in N; use_eqs_in N; discriminate N.
  - unfold main, destroy_and_exit, WaitAndExit, SetFan, SetZeroRPM.
    exec; unrun; subst; intros E N; invert_split E; auto.
    all: cbn [left_null isnull] in N; use_eqs_in N; discriminate N.
  - intros E N. cbn [left_null] in N. destruct out; [discriminate N|].
    clear N. revert E.
    unfold main, destroy_and_exit, WaitAndExit, SetFan, SetZeroRPM.
    exec; unrun; subst; intros E; invert_split E.
    all: apply split_app in E;
      destruct E as [(p1 & Hl & ->)|(p2 & -> & E)]; [|invert_split E].
    all: apply SetFan_loop_null in Hl; destruct Hl as [-> Hl].
    all: try congruence.
    all: split; reflexivity.
Qed.

End Runs.

(** ** Runs on the simulated SDK *)

Import Sim.

(** On the healthy machine the program leaves zero RPM off and the fixed
    curve in the list of states, and commits it. *)
Example healthy_run :
  result (run healthy) = Some 0 /\
  zero_rpm (final (run healthy)) = false /\
  committed (final (run healthy)) =
  Some [(25, 45); (45, 50); (50, 65); (65, 85); (90, 95)] /\
  destroyed (final (run healthy)) = 1%nat.
Proof. repeat split. Qed.

(** The whole log of a run that stops at the support check. *)
Example unsupported_run :
  events (run unsupported) =
  [EvInitialize ADLX_OK; EvGetGPUTuningServices ADLX_OK (Some tt);
   EvGetGPUs ADLX_OK (Some tt); EvGPUListAt tt 0 ADLX_OK (Some 7%nat);
   EvIsSupportedManualFanTuning tt (Some 7%nat) ADLX_OK false;
   EvTerminate ADLX_OK; EvCoutRes "Destroy ADLX res: " ADLX_OK;
   EvCout (tab ++ "This GPU doesn't supported manual fan tuning")%string;
   EvPause].
Proof. reflexivity. Qed.

(** The whole log of a run on a fan with four states: every call
    succeeds, no state is read or written, the list is committed as it
    was. *)
Example four_states_run :
  events (run four_states) =
  [EvInitialize ADLX_OK; EvGetGPUTuningServices ADLX_OK (Some tt);
   EvGetGPUs ADLX_OK (Some tt); EvGPUListAt tt 0 ADLX_OK (Some 7%nat);
   EvIsSupportedManualFanTuning tt (Some 7%nat) ADLX_OK true;
   EvGetManualFanTuning tt (Some 7%nat) ADLX_OK (Some 7%nat);
   EvQueryInterface (Some 7%nat) (Some 7%nat);
   EvIsSupportedZeroRPM 7%nat ADLX_OK true;
   EvGetZeroRPMState 7%nat ADLX_OK true;
   EvSetZeroRPMState 7%nat false ADLX_OK;
   EvGetFanTuningStates 7%nat ADLX_OK (Some tt);
   EvSize tt 4;
   EvIsValidFanTuningStates 7%nat (Some tt) ADLX_OK 0;
   EvSetFanTuningStates 7%nat (Some tt) ADLX_OK;
   EvTerminate ADLX_OK] /\
  states (final (run four_states)) = states four_states.
Proof. split; reflexivity. Qed.

(** C1 as stated fails.  On the fan with four states initialization, the
    retrieval of the GPU and the support check succeed, as does every
    other call, and the program sets no pair at all. *)
Lemma four_states_curve_not_applied :
  ~ applies_fixed_curve (events (run four_states)).
Proof.
  intros H. destruct H as [[l Hv] _].
  - repeat split.
    + exists ADLX_OK. split; [vm_compute; auto 20 | reflexivity].
    + exists tt, ADLX_OK, 7%nat. split; [vm_compute; auto 20 | reflexivity].
    + exists tt, (Some 7%nat), ADLX_OK.
      split; [vm_compute; auto 20 | reflexivity].
  - destruct (Hv 0%nat) as (pre & log & post & E & V); [lia|].
    destruct V as (res & st & sp & te & tr1 & tr2 & _ & _ & -> & _).
    assert (Hin : In (EvStateAt l 0 res (Some st)) (events (run four_states)))
      by (rewrite E; apply in_or_app; right; left; reflexivity).
    vm_compute in Hin.
    repeat (destruct Hin as [Hin|Hin]; [discriminate Hin|]).
    exact Hin.
Qed.

(** C6 as stated fails.  On the machine whose driver fails to read the
    zero-RPM state, zero RPM is supported and on; the program reads
    [false], the value it had put into the variable, makes no call to
    [SetZeroRPMState], and leaves zero RPM on. *)
Lemma zero_rpm_left_enabled :
  ~ zero_rpm_set_to_disabled (events (run blind)) /\
  zero_rpm blind = true /\
  zero_rpm (final (run blind)) = true.
Proof.
  split; [|split; reflexivity].
  intros H. destruct H as (mft & res & Hin).
  - exists 7%nat, ADLX_OK. split; [vm_compute; auto 20 | reflexivity].
  - vm_compute in Hin.
    repeat (destruct Hin as [Hin|Hin]; [discriminate Hin|]).
    exact Hin.
Qed.

(** C2 as stated fails.  On the healthy machine the calls are not in the
    order of the sentence, whichever interface is read as the capability
    interface: the GPU tuning services are fetched before the GPU, and
    the manual fan tuning interface after the support check.  And on the
    machine whose GPU is unsupported, [Terminate] is called although the
    support check before it did not succeed. *)
Lemma spec_order_not_followed :
  (forall services, ~ in_spec_order services (events (run healthy))) /\
  (forall services,
      ~ steps_only_after_success services (events (run unsupported))).
Proof.
  split; intros services H.
  - destruct services.
    + specialize (H [EvInitialize ADLX_OK]
                    (EvGetGPUTuningServices ADLX_OK (Some tt)) []
                    (EvGetGPUs ADLX_OK (Some tt))
                    (skipn 3 (events (run healthy))) 3%nat 2%nat
                    eq_refl eq_refl eq_refl).
      lia.
    + specialize (H (firstn 4 (events (run healthy)))
                    (EvIsSupportedManualFanTuning tt (Some 7%nat) ADLX_OK true)
                    []
                    (EvGetManualFanTuning tt (Some 7%nat) ADLX_OK (Some 7%nat))
                    (skipn 6 (events (run healthy))) 4%nat 3%nat
                    eq_refl eq_refl eq_refl).
      lia.
  - specialize (H (firstn 4 (events (run unsupported)))
                  (EvIsSupportedManualFanTuning tt (Some 7%nat) ADLX_OK false)
                  [] (EvTerminate ADLX_OK)
                  (skipn 6 (events (run unsupported))) eq_refl).
    assert (F : passed (EvIsSupportedManualFanTuning tt (Some 7%nat) ADLX_OK false)
                = true)
      by (apply H; destruct services; discriminate).
    discriminate F.
Qed.

(** C3 as stated fails.  On the machine whose driver fails to read a
    state, [GetFanSpeed] returns [ADLX_FAIL], the program does not look at
    that result, and goes on to write the speed of the same state. *)
Lemma failed_read_followed_by_write :
  ~ failure_stops_dependents (events (run flaky)).
Proof.
  intros H.
  apply (H (firstn 15 (events (run flaky)))
           (@EvGetFanSpeed sdk 0%nat ADLX_FAIL 0) []
           (@EvSetFanSpeed sdk 0%nat 25 ADLX_OK)
           (skipn 17 (events (run flaky))) ADLX_FAIL
           eq_refl eq_refl eq_refl).
  reflexivity.
Qed.

(** ** The theorems at work *)

(** C4 on the healthy machine, where the run goes all the way, and on the
    machine whose GPU is unsupported, where it leaves early: one
    [Terminate] each, and 0 returned. *)
Lemma terminate_once_witness :
  (hd_error (events (run healthy)) = Some (EvInitialize ADLX_OK) /\
   succeeded ADLX_OK = true /\
   forallb documented (events (run healthy)) = true /\
   result (run healthy) = Some 0 /\
   terminations (events (run healthy)) = 1%nat) /\
  (hd_error (events (run unsupported)) = Some (EvInitialize ADLX_OK) /\
   forallb documented (events (run unsupported)) = true /\
   result (run unsupported) = Some 0 /\
   terminations (events (run unsupported)) = 1%nat).
Proof.
  split.
  - split; [reflexivity|]. split; [reflexivity|]. split; [reflexivity|].
    destruct (@terminate_once sdk healthy ADLX_OK
                eq_refl eq_refl (or_introl eq_refl)) as (R & T & _).
    exact (conj R T).
  - split; [reflexivity|]. split; [reflexivity|].
    destruct (@terminate_once sdk unsupported ADLX_OK
                eq_refl eq_refl (or_introl eq_refl)) as (R & T & _).
    exact (conj R T).
Defined.

(** C7 on the same machine: the support check answers [false], nothing
    is tuned, [main] returns 0. *)
Lemma support_checked_before_mutation_witness :
  let pre := firstn 4 (events (run unsupported)) in
  let post := skipn 5 (events (run unsupported)) in
  events (run unsupported) =
  pre ++ EvIsSupportedManualFanTuning tt (Some 7%nat) ADLX_OK false :: post /\
  failed ADLX_OK || Bool.eqb false false = true /\
  Forall (fun e => is_tuning e = false) (events (run unsupported)) /\
  result (run unsupported) = Some 0.
Proof.
  cbv zeta. split; [reflexivity|]. split; [reflexivity|].
  destruct (proj2 (@support_checked_before_mutation sdk unsupported)
              tt (Some 7%nat) ADLX_OK false
              (firstn 4 (events (run unsupported)))
              (skipn 5 (events (run unsupported))) eq_refl eq_refl)
    as (H1 & _ & H3).
  split; assumption.
Defined.

(** C5 on the machine without a GPU: [At(0)] fails, nothing is tuned. *)
Lemma first_gpu_witness :
  let pre := firstn 3 (events (run no_gpu)) in
  let post := skipn 4 (events (run no_gpu)) in
  events (run no_gpu) =
  pre ++ EvGPUListAt tt 0 ADLX_INVALID_ARGS None :: post /\
  failed ADLX_INVALID_ARGS || isnull (@None nat) = true /\
  Forall (fun e => is_tuning e = false) (events (run no_gpu)) /\
  result (run no_gpu) = Some 0.
Proof.
  cbv zeta. split; [reflexivity|]. split; [reflexivity|].
  destruct (proj2 (@first_gpu sdk no_gpu)
              tt 0%nat ADLX_INVALID_ARGS None
              (firstn 3 (events (run no_gpu)))
              (skipn 4 (events (run no_gpu))) eq_refl eq_refl)
    as (H1 & _ & H3).
  split; assumption.
Defined.

(** C6 on the healthy machine: zero RPM is on, and is switched off before
    the first call of [SetFan]. *)
Lemma zero_rpm_disabled_first_witness :
  let pre := firstn 7 (events (run healthy)) in
  let post := skipn 8 (events (run healthy)) in
  events (run healthy) = pre ++ EvIsSupportedZeroRPM 7%nat ADLX_OK true :: post /\
  failed ADLX_OK = false /\
  Forall (fun e => is_fan_curve e = false) pre /\
  exists r cur rest,
    post = EvGetZeroRPMState 7%nat r cur :: rest /\
    if cur
    then exists r' rest',
        rest = EvSetZeroRPMState 7%nat false r' :: rest' /\
        Forall (fun e => is_zero_rpm e = false) rest'
    else Forall (fun e => is_zero_rpm e = false) rest.
Proof.
  cbv zeta. split; [reflexivity|]. split; [reflexivity|].
  exact (@zero_rpm_disabled_first sdk healthy 7%nat ADLX_OK
           (firstn 7 (events (run healthy)))
           (skipn 8 (events (run healthy))) eq_refl eq_refl).
Defined.

(** C9 on the healthy machine: the first write of a speed. *)
Lemma writes_only_on_difference_witness :
  let pre := firstn 16 (events (run healthy)) in
  let post := skipn 17 (events (run healthy)) in
  events (run healthy) = pre ++ EvSetFanSpeed 0%nat 25 ADLX_OK :: post /\
  guarded_write (rev pre) (@EvSetFanSpeed sdk 0%nat 25 ADLX_OK).
Proof.
  cbv zeta. split; [reflexivity|].
  exact (proj1 (@writes_only_on_difference sdk healthy)
           (firstn 16 (events (run healthy)))
           (@EvSetFanSpeed sdk 0%nat 25 ADLX_OK)
           (skipn 17 (events (run healthy))) eq_refl).
Defined.

(** C10 on the fan with four states: no position, no element is
    touched, and the list is validated next.  And on the healthy machine:
    the first write of a speed comes after a [Size] of 5, and the list
    fetched is validated after the calls on its states. *)
Lemma five_states_or_untouched_witness :
  (let pre := firstn 11 (events (run four_states)) in
   let post := skipn 12 (events (run four_states)) in
   events (run four_states) = pre ++ EvSize tt 4 :: post /\
   4%nat <> 5%nat /\
   Forall (fun e => is_element e = false) (events (run four_states)) /\
   exists mft r idx post',
     post = EvIsValidFanTuningStates mft (Some tt) r idx :: post') /\
  (let pre := firstn 16 (events (run healthy)) in
   let post := skipn 17 (events (run healthy)) in
   events (run healthy) = pre ++ EvSetFanSpeed 0%nat 25 ADLX_OK :: post /\
   is_state_write (@EvSetFanSpeed sdk 0%nat 25 ADLX_OK) = true /\
   exists l, In (@EvSize sdk l 5) pre) /\
  (let pre := firstn 10 (events (run healthy)) in
   let post := skipn 11 (events (run healthy)) in
   events (run healthy) =
   pre ++ EvGetFanTuningStates 7%nat ADLX_OK (Some tt) :: post /\
   forallb documented (events (run healthy)) = true /\
   exists mid r idx post',
     post = mid ++ EvIsValidFanTuningStates 7%nat (Some tt) r idx :: post' /\
     Forall (fun e => is_state_access e = true) mid).
Proof.
  cbv zeta. split; [|split].
  - split; [reflexivity|]. split; [discriminate|].
    apply (proj1 (proj2 (@five_states_or_untouched sdk four_states))
             tt 4%nat (firstn 11 (events (run four_states)))
             (skipn 12 (events (run four_states))) eq_refl).
    discriminate.
  - split; [reflexivity|]. split; [reflexivity|].
    exact (proj1 (@five_states_or_untouched sdk healthy)
             (firstn 16 (events (run healthy)))
             (@EvSetFanSpeed sdk 0%nat 25 ADLX_OK)
             (skipn 17 (events (run healthy))) eq_refl eq_refl).
  - split; [reflexivity|]. split; [reflexivity|].
    exact (proj1 (proj2 (proj2 (@five_states_or_untouched sdk healthy)))
             7%nat ADLX_OK (Some tt)
             (firstn 10 (events (run healthy)))
             (skipn 11 (events (run healthy))) eq_refl (or_introl eq_refl)).
Defined.

(** C3 on the machine whose driver rejects the list: the validation
    fails, and the call after it is not the commit. *)
Lemma failed_test_skips_what_it_guards_witness :
  let pre := firstn 48 (events (run picky)) in
  let c := @EvIsValidFanTuningStates sdk 7%nat (Some tt) ADLX_INVALID_ARGS 0 in
  let e := @EvTerminate sdk ADLX_OK in
  events (run picky) = pre ++ c :: [] ++ e :: [] /\
  passed c = false /\
  guards c e = false.
Proof.
  cbv zeta. split; [reflexivity|]. split; [reflexivity|].
  exact (@failed_test_skips_what_it_guards sdk picky
           (firstn 48 (events (run picky)))
           (@EvIsValidFanTuningStates sdk 7%nat (Some tt) ADLX_INVALID_ARGS 0) []
           (@EvTerminate sdk ADLX_OK) [] eq_refl eq_refl).
Defined.

(** C2 on the healthy machine: everything before [GetFanTuningStates] is
    of an earlier stage, and every test of [main] before it has passed. *)
Lemma calls_in_order_behind_tests_witness :
  let pre := firstn 10 (events (run healthy)) in
  let e := @EvGetFanTuningStates sdk 7%nat ADLX_OK (Some tt) in
  let post := skipn 11 (events (run healthy)) in
  events (run healthy) = pre ++ e :: post /\
  Forall (fun c => (stage c <= stage e)%nat) pre /\
  Forall (fun c => is_main_test c = true -> passed c = true) pre.
Proof.
  cbv zeta. split; [reflexivity|].
  destruct (@calls_in_order_behind_tests sdk healthy
              (firstn 10 (events (run healthy)))
              (@EvGetFanTuningStates sdk 7%nat ADLX_OK (Some tt))
              (skipn 11 (events (run healthy))) eq_refl)
    as (H1 & H2 & _).
  split; [exact H1 | exact (H2 eq_refl)].
Defined.

(** C1 on the healthy machine: five visits, validation, commit. *)
Lemma fixed_curve_applied_witness :
  let pre := firstn 11 (events (run healthy)) in
  let post := skipn 12 (events (run healthy)) in
  events (run healthy) = pre ++ EvSize tt 5 :: post /\
  forallb documented (events (run healthy)) = true /\
  result (run healthy) = Some 0 /\
  exists mft logs res idx rest,
    post =
    EvBegin tt 0 :: loop_log tt logs ++
    EvIsValidFanTuningStates mft (Some tt) res idx :: rest /\
    Forall2 (visits tt) (seq 0 5) logs /\
    ((succeeded res = true /\
      exists res' res'',
        rest = [EvSetFanTuningStates mft (Some tt) res'; EvTerminate res'']) \/
     (succeeded res = false /\
      exists res', rest = [EvTerminate res'])).
Proof.
  cbv zeta. split; [reflexivity|]. split; [reflexivity|].
  exact (@fixed_curve_applied sdk healthy tt
           (firstn 11 (events (run healthy)))
           (skipn 12 (events (run healthy))) eq_refl eq_refl).
Defined.

(** ** The further theorems at work *)

(** X1 on the machine whose SDK cannot be initialized: the message names
    the initialization, nothing is destroyed, [main] returns 0. *)
Lemma failure_is_reported_witness :
  let c := @EvInitialize sdk ADLX_FAIL in
  let post := skipn 1 (events (run absent)) in
  events (run absent) = [] ++ c :: post /\
  is_main_test c = true /\
  passed c = false /\
  exists msg,
    failure_message c = Some msg /\
    farewell c msg post /\
    result (run absent) = Some 0.
Proof.
  cbv zeta. split; [reflexivity|]. split; [reflexivity|].
  split; [reflexivity|].
  exact (@failure_is_reported sdk absent [] (@EvInitialize sdk ADLX_FAIL)
           (skipn 1 (events (run absent))) eq_refl eq_refl eq_refl).
Defined.

(** X2 on the machine whose GPU is unsupported: the pause comes after a
    test of [main] that failed. *)
Lemma output_only_on_failure_witness :
  let pre := firstn 8 (events (run unsupported)) in
  events (run unsupported) = pre ++ EvPause :: [] /\
  is_runtime (@EvPause sdk) = true /\
  exists c, In c pre /\ is_main_test c = true /\ passed c = false.
Proof.
  cbv zeta. split; [reflexivity|]. split; [reflexivity|].
  exact (proj1 (@output_only_on_failure sdk unsupported)
           (firstn 8 (events (run unsupported))) (@EvPause sdk) []
           eq_refl eq_refl).
Defined.


(** X4 on the healthy machine: the first visit is at position 0, the
    answer of [Begin()], and inside the arrays. *)
Lemma loop_walks_the_list_witness :
  let pre := firstn 14 (events (run healthy)) in
  let post := skipn 15 (events (run healthy)) in
  events (run healthy) = pre ++ EvStateAt tt 0 ADLX_OK (Some 0%nat) :: post /\
  forallb five_positions (events (run healthy)) = true /\
  (exists n pre',
      pre = pre' ++ [@EvEnd sdk tt n] /\ n <> 0%nat /\
      next_position (rev pre') = Some 0%nat) /\
  (0 < 5)%nat.
Proof.
  cbv zeta. split; [reflexivity|]. split; [reflexivity|].
  destruct (@loop_walks_the_list sdk healthy
              (firstn 14 (events (run healthy))) tt 0%nat ADLX_OK (Some 0%nat)
              (skipn 15 (events (run healthy))) eq_refl)
    as [H1 H2].
  split; [exact H1 | exact (H2 eq_refl)].
Defined.

(** X5 on the healthy machine: the state whose speed is written first is
    the one [At(0)] handed out. *)
Lemma objects_were_handed_out_witness :
  let pre := firstn 16 (events (run healthy)) in
  let post := skipn 17 (events (run healthy)) in
  events (run healthy) = pre ++ EvSetFanSpeed 0%nat 25 ADLX_OK :: post /\
  handed_out (rev pre) (@EvSetFanSpeed sdk 0%nat 25 ADLX_OK).
Proof.
  cbv zeta. split; [reflexivity|].
  exact (@objects_were_handed_out sdk healthy
           (firstn 16 (events (run healthy)))
           (@EvSetFanSpeed sdk 0%nat 25 ADLX_OK)
           (skipn 17 (events (run healthy))) eq_refl).
Defined.

(** X6 on the healthy machine: two calls on the zero-RPM state, then the
    list of states is fetched. *)
Lemma fan_curve_follows_zero_rpm_witness :
  let pre := firstn 7 (events (run healthy)) in
  let post := skipn 8 (events (run healthy)) in
  events (run healthy) = pre ++ EvIsSupportedZeroRPM 7%nat ADLX_OK true :: post /\
  exists zero r out rest,
    post = zero ++ EvGetFanTuningStates 7%nat r out :: rest /\
    Forall (fun e => is_zero_rpm e = true) zero /\
    (List.length zero <= 2)%nat.
Proof.
  cbv zeta. split; [reflexivity|].
  exact (@fan_curve_follows_zero_rpm sdk healthy 7%nat ADLX_OK true
           (firstn 7 (events (run healthy)))
           (skipn 8 (events (run healthy))) eq_refl).
Defined.

(** X7 on the machine whose driver hands out no list: the null list is
    validated all the same. *)
Lemma failed_fetch_still_validated_witness :
  let pre := firstn 10 (events (run deaf)) in
  let post := skipn 11 (events (run deaf)) in
  events (run deaf) = pre ++ EvGetFanTuningStates 7%nat ADLX_FAIL None :: post /\
  succeeded ADLX_FAIL = false /\
  result (run deaf) = Some 0 /\
  exists r idx rest,
    post = EvIsValidFanTuningStates 7%nat None r idx :: rest /\
    if succeeded r
    then exists r' r'',
        rest = [EvSetFanTuningStates 7%nat None r'; EvTerminate r'']
    else exists r'', rest = [EvTerminate r''].
Proof.
  cbv zeta. split; [reflexivity|]. split; [reflexivity|].
  exact (@failed_fetch_still_validated sdk deaf 7%nat ADLX_FAIL None
           (firstn 10 (events (run deaf)))
           (skipn 11 (events (run deaf))) eq_refl eq_refl).
Defined.

(** X8 on the machine whose zero RPM is off, with the target [true]: the
    state is switched on. *)
Lemma SetZeroRPM_either_target_witness :
  let tr := events (SetZeroRPM (Some 7%nat) true tuned) in
  let e := @EvSetZeroRPMState sdk 7%nat true ADLX_OK in
  tr = firstn 2 tr ++ e :: [] /\
  is_setting_write e = true /\
  exists res r r',
    firstn 2 tr =
    [EvIsSupportedZeroRPM 7%nat res true;
     EvGetZeroRPMState 7%nat r (negb true)] /\
    e = EvSetZeroRPMState 7%nat true r' /\
    failed res = false.
Proof.
  cbv zeta. split; [reflexivity|]. split; [reflexivity|].
  exact (proj2 (proj1 (proj2 (@SetZeroRPM_either_target sdk tuned 7%nat true))
                  (firstn 2 (events (SetZeroRPM (Some 7%nat) true tuned)))
                  (@EvSetZeroRPMState sdk 7%nat true ADLX_OK) []
                  eq_refl eq_refl)).
Defined.

(** X9 on the SDK that hands out nothing: the GPU list is null, and the
    run ends at [GetGPUs]. *)
Lemma null_pointer_stops_the_run_witness :
  let e := @EvGetGPUs Hollow.sdk tt None in
  events Hollow.run = firstn 2 (events Hollow.run) ++ e :: [] /\
  left_null e = true /\
  result Hollow.run = None.
Proof.
  cbv zeta. split; [reflexivity|]. split; [reflexivity|].
  exact (proj2 (@null_pointer_stops_the_run Hollow.sdk tt
                  (firstn 2 (events Hollow.run))
                  (@EvGetGPUs Hollow.sdk tt None) [] eq_refl eq_refl)).
Defined.
